(** * Toolforge volume admission webhook: the admission decision engine

    Shallow embedding of [server/admission.go] and the properties of
    [HandleAdmission] stated in the specification.

    Go slices are [option (list _)] where the code or the patch consumer
    can tell a nil slice from an empty one, Go maps are [gmap], pointers
    that may be nil are [option].  Logging calls have no effect on the
    response and are left out.  Fields of the Kubernetes types that the
    code never reads are left out as well. *)

From Stdlib Require Import String Ascii List Bool Arith Lia.
From Stdlib Require Import DecimalString DecimalNat.
From stdpp Require Import base option list gmap strings.

Local Open Scope string_scope.
Local Open Scope list_scope.

(** ** Strings: the functions of Go's [strings] and [fmt] that the code calls *)

(** [strings.HasPrefix(s, prefix)]. *)
Definition HasPrefix (s pre : string) : bool := String.prefix pre s.

(** [s[n:]]. *)
Fixpoint string_drop (n : nat) (s : string) : string :=
  match n, s with
  | 0, _ => s
  | S _, EmptyString => EmptyString
  | S m, String _ r => string_drop m r
  end.

(** [strings.Replace(s, old, new, 1)]: the first occurrence of [old],
    scanning from the left, is replaced by [new]; [s] is returned as it is
    when [old] does not occur. *)
Fixpoint Replace1 (s old new : string) : string :=
  if String.prefix old s then new +:+ string_drop (String.length old) s
  else match s with
       | EmptyString => EmptyString
       | String c r => String c (Replace1 r old new)
       end.

(** [fmt.Sprintf("%d", i)] for an index [i]. *)
Definition itoa (i : nat) : string := NilEmpty.string_of_uint (Nat.to_uint i).

(** ** Kubernetes types (the fields that are read or produced) *)

Module corev1.

Definition HostPathType := string.

Record HostPathVolumeSource := {
  hp_Path : string;
  hp_Type : option HostPathType
}.

Record Volume := {
  Volume_Name : string;
  Volume_HostPath : option HostPathVolumeSource
}.

Record VolumeMount := {
  Mount_MountPath : string;
  Mount_Name : string;
  Mount_ReadOnly : bool
}.

Record EnvVar := {
  Env_Name : string;
  Env_Value : string
}.

Record Container := {
  VolumeMounts : option (list VolumeMount);
  Env : option (list EnvVar);
  WorkingDir : string
}.

Record Pod := {
  Labels : gmap string string;
  Volumes : option (list Volume);
  Containers : list Container;
  NodeSelector : option (gmap string string)
}.

End corev1.
Import corev1.

(** The elements a [range] loop visits; [len] of a nil slice is 0. *)
Definition elems {A : Type} (s : option (list A)) : list A :=
  match s with
  | Some l => l
  | None => []
  end.

Module admissionv1.

Inductive PatchType := PatchTypeJSONPatch.

Record Status := { Message : string }.

Record AdmissionRequest := {
  req_UID : string;
  Namespace : string;
  Object_Raw : list Byte.byte
}.

Record AdmissionResponse := {
  UID : string;
  Allowed : bool;
  Result : option Status;
  Patch : option (list Byte.byte);
  PatchType_ : option PatchType
}.

Record AdmissionReview := {
  Request : AdmissionRequest;
  Response : option AdmissionResponse
}.

End admissionv1.
Import admissionv1.

(** ** The types of [admission.go] *)

Definition MountConfigLabel : string := "toolforge.org/mount-storage".
Definition MountAll : string := "all".
Definition MountNone : string := "none".

(** The payloads that are stored in [PatchOperation.Value], one case per
    Go value the code puts there; [NoValue] is the nil interface, which
    [omitempty] drops. *)
Inductive PatchValue :=
| NoValue
| EmptyStrings
| EmptyEnvVars
| EmptyMap
| StringValue (s : string)
| VolumeValue (v : corev1.Volume)
| VolumeMountValue (m : VolumeMount)
| EnvVarValue (e : EnvVar).

Record PatchOperation := {
  Op : string;
  Path : string;
  Value : PatchValue
}.

Record Volume := {
  Name : string;
  Path_ : string;
  Type_ : HostPathType;
  ReadOnly : bool
}.

Record VolumeAdmission := { Volumes_ : list Volume }.

(** The external collaborators: [json.Unmarshal] into a Pod and
    [json.Marshal] of the patch list, both returning either a result or the
    text of the error, and the [String] method behind [%s] of a
    [*HostPathVolumeSource]. *)
Class Json := {
  json_Unmarshal : list Byte.byte -> Pod + string;
  json_Marshal : list PatchOperation -> list Byte.byte + string;
  HostPath_String : HostPathVolumeSource -> string
}.

(** [for i, x := range l { patches = append(patches, body(i, x)...) }],
    with the index of the first element given. *)
Fixpoint rangeFrom {A B : Type} (body : nat -> A -> list B) (i : nat) (l : list A) : list B :=
  match l with
  | [] => []
  | x :: r => body i x ++ rangeFrom body (S i) r
  end.

Definition getLabelOrDefault (pod : Pod) (label defaultValue : string) : string :=
  match Labels pod !! label with
  | Some value => value
  | None => defaultValue
  end.

Definition hasMountByPath (container : Container) (path : string) : bool :=
  existsb (fun mount => String.eqb (Mount_MountPath mount) path) (elems (VolumeMounts container)).

Definition hasVolumeByName (pod : Pod) (name : string) : bool :=
  existsb (fun volume => String.eqb (Volume_Name volume) name) (elems (Volumes pod)).

Definition hasEnvVarSet (container : Container) (envVar : string) : bool :=
  existsb (fun env => String.eqb (Env_Name env) envVar) (elems (Env container)).

(** ** HandleAdmission *)

Definition containerPath (i : nat) (field : string) : string :=
  "/spec/containers/" +:+ itoa i +:+ field.

Definition nfsMountedKey : string := "kubernetes.wmcloud.org/nfs-mounted".

Definition opInitVolumes : PatchOperation :=
  {| Op := "add"; Path := "/spec/volumes"; Value := EmptyStrings |}.

Definition opInitVolumeMounts (i : nat) : PatchOperation :=
  {| Op := "add"; Path := containerPath i "/volumeMounts"; Value := EmptyStrings |}.

(** The [corev1.Volume] of lines 217-225. *)
Definition hostPathVolume (volume : Volume) : corev1.Volume :=
  {| Volume_Name := Name volume;
     Volume_HostPath := Some {| hp_Path := Path_ volume; hp_Type := Some (Type_ volume) |} |}.

(** The [corev1.VolumeMount] of lines 238-242. *)
Definition volumeMount (volume : Volume) : VolumeMount :=
  {| Mount_MountPath := Path_ volume; Mount_Name := Name volume;
     Mount_ReadOnly := ReadOnly volume |}.

Definition opAddVolume (volume : Volume) : PatchOperation :=
  {| Op := "add"; Path := "/spec/volumes/-"; Value := VolumeValue (hostPathVolume volume) |}.

Definition opAddMount (i : nat) (volume : Volume) : PatchOperation :=
  {| Op := "add"; Path := containerPath i "/volumeMounts/-";
     Value := VolumeMountValue (volumeMount volume) |}.

Definition opInitEnv (i : nat) : PatchOperation :=
  {| Op := "add"; Path := containerPath i "/env"; Value := EmptyEnvVars |}.

Definition opRemoveWorkingDir (i : nat) : PatchOperation :=
  {| Op := "remove"; Path := containerPath i "/workingDir"; Value := NoValue |}.

Definition opAddEnv (i : nat) (name value : string) : PatchOperation :=
  {| Op := "add"; Path := containerPath i "/env/-";
     Value := EnvVarValue {| Env_Name := name; Env_Value := value |} |}.

Definition opInitNodeSelector : PatchOperation :=
  {| Op := "add"; Path := "/spec/nodeSelector"; Value := EmptyMap |}.

Definition opNfsMounted : PatchOperation :=
  {| Op := "add"; Path := "/spec/nodeSelector/kubernetes.wmcloud.org~1nfs-mounted";
     Value := StringValue "true" |}.

(** What [HandleAdmission] leaves behind: the response it stores in
    [review.Response], and the final content of its local slice [patches]
    (the list handed to [json.Marshal] on the paths that reach it). *)
Record Outcome := {
  response : AdmissionResponse;
  patches : list PatchOperation
}.

Section Model.
Context `{J : Json}.

(** A response that only carries the UID and a message: [Allowed] keeps
    its zero value, [Patch] and [PatchType] stay nil. *)
Definition messageResponse (uid message : string) : AdmissionResponse :=
  {| UID := uid; Allowed := false; Result := Some {| Message := message |};
     Patch := None; PatchType_ := None |}.

Definition patchResponse (uid message : string) (patch : option (list Byte.byte)) : AdmissionResponse :=
  {| UID := uid; Allowed := true; Result := Some {| Message := message |};
     Patch := patch; PatchType_ := Some PatchTypeJSONPatch |}.

(** The loop over [pod.Spec.Volumes] of lines 139-159: the message of the
    denial for the first hostPath volume that is not the home volume. *)
Fixpoint findForeignHostPath (idx : nat) (volumes : list corev1.Volume) : option string :=
  match volumes with
  | [] => None
  | volume :: rest =>
      match Volume_HostPath volume with
      | Some hostPath =>
          if negb (String.eqb (Volume_Name volume) "home")
             || negb (String.eqb (hp_Path hostPath) "/data/project")
          then Some ("No hostPath volumes allowed, got one under /spec/volumes/"
                     +:+ itoa idx +:+ " Name:" +:+ Volume_Name volume
                     +:+ " HostPath:" +:+ HostPath_String hostPath)
          else findForeignHostPath (S idx) rest
      | None => findForeignHostPath (S idx) rest
      end
  end.

(** Lines 195-206. *)
Definition volumeMountsInit (i : nat) (container : Container) : list PatchOperation :=
  if Nat.eqb (length (elems (VolumeMounts container))) 0
  then [opInitVolumeMounts i] else [].

(** Lines 229-245, for one volume of the policy. *)
Definition mountPatch (volume : Volume) (i : nat) (container : Container) : list PatchOperation :=
  if hasMountByPath container (Path_ volume) then [] else [opAddMount i volume].

(** Lines 208-246, for one volume of the policy. *)
Definition volumePatches (pod : Pod) (volume : Volume) : list PatchOperation :=
  if hasVolumeByName pod (Name volume) then []
  else opAddVolume volume :: rangeFrom (mountPatch volume) 0 (Containers pod).

(** Lines 248-296, for one container. *)
Definition envPatches (namespace : string) (i : nat) (container : Container) : list PatchOperation :=
  let init := match Env container with None => [opInitEnv i] | Some _ => [] end in
  let skipSettingHome := hasEnvVarSet container "HOME" in
  let noHome := hasEnvVarSet container "NO_HOME" in
  let skipSettingHome := if noHome then true else skipSettingHome in
  let removeDir :=
    if noHome then
      if negb (String.eqb (WorkingDir container) "") then [opRemoveWorkingDir i] else []
    else [] in
  let toolName := Replace1 namespace "tool-" "" in
  let toolHome := "/data/project/" +:+ toolName in
  let home := if negb skipSettingHome then [opAddEnv i "HOME" toolHome] else [] in
  init ++ removeDir ++ home ++ [opAddEnv i "TOOL_DATA_DIR" toolHome].

(** Lines 298-317. *)
Definition nodeSelectorPatches (pod : Pod) : list PatchOperation :=
  let '(nodeSelector, init) :=
    match NodeSelector pod with
    | None => (∅, [opInitNodeSelector])
    | Some m => (m, [])
    end in
  init ++ match nodeSelector !! nfsMountedKey with
          | None => [opNfsMounted]
          | Some _ => []
          end.

(** Lines 195-317: what the full path appends to [patches]. *)
Definition mountAllPatches (admission : VolumeAdmission) (namespace : string) (pod : Pod)
  : list PatchOperation :=
  rangeFrom volumeMountsInit 0 (Containers pod)
  ++ flat_map (volumePatches pod) (Volumes_ admission)
  ++ rangeFrom (envPatches namespace) 0 (Containers pod)
  ++ nodeSelectorPatches pod.

Definition HandleAdmission_run (admission : VolumeAdmission) (review : AdmissionReview) : Outcome :=
  let req := Request review in
  match json_Unmarshal (Object_Raw req) with
  | inr err => {| response := messageResponse (req_UID req) err; patches := [] |}
  | inl pod =>
    let mountConfig := getLabelOrDefault pod MountConfigLabel MountAll in
    if negb (String.eqb mountConfig MountAll) && negb (String.eqb mountConfig MountNone) then
      {| response := messageResponse (req_UID req)
                       ("Invalid value for " +:+ MountConfigLabel +:+ " label");
         patches := [] |}
    else if negb (HasPrefix (Namespace req) "tool-") then
      {| response := messageResponse (req_UID req)
                       "Only tools can have tool volumes mounted to them";
         patches := [] |}
    else
      let checked :=
        if negb (Nat.eqb (length (elems (Volumes pod))) 0)
        then match findForeignHostPath 0 (elems (Volumes pod)) with
             | Some message => inr message
             | None => inl []
             end
        else inl [opInitVolumes] in
      match checked with
      | inr message =>
          {| response := messageResponse (req_UID req) message; patches := [] |}
      | inl patches0 =>
        if String.eqb mountConfig MountNone then
          (* The error response of lines 183-188 is overwritten by line 191. *)
          let patch := match json_Marshal patches0 with
                       | inl bytes => Some bytes
                       | inr _ => None
                       end in
          {| response := patchResponse (req_UID req) "No volumes requested" patch;
             patches := patches0 |}
        else
          let patches1 := patches0 ++ mountAllPatches admission (Namespace req) pod in
          match json_Marshal patches1 with
          | inr err =>
              {| response := messageResponse (req_UID req) err; patches := patches1 |}
          | inl bytes =>
              {| response := patchResponse (req_UID req) "Volumes mounted" (Some bytes);
                 patches := patches1 |}
          end
      end
  end.

Definition HandleAdmission (admission : VolumeAdmission) (review : AdmissionReview) : AdmissionReview :=
  {| Request := Request review;
     Response := Some (response (HandleAdmission_run admission review)) |}.

End Model.

(** ** The consumer of the patch

    The API server applies the operations in order (RFC 6902) to the Pod
    document.  [applyPatch] does so for the operations that
    [HandleAdmission] can emit, on the decoded Pod: [add] of an object
    member sets it, [add] at [/-] appends and needs the array, [remove]
    needs the member.  Any other operation is refused. *)

(** The part of [s] before its first ['/'] and the rest, from that ['/'] on. *)
Fixpoint splitAtSlash (s : string) : string * string :=
  match s with
  | EmptyString => (EmptyString, EmptyString)
  | String c r =>
      if Ascii.eqb c "/" then (EmptyString, s)
      else let '(a, b) := splitAtSlash r in (String c a, b)
  end.

(** [/spec/containers/{i}{field}] read back into [i] and [field]; an index
    is a decimal number without leading zeros. *)
Definition parseContainerPath (path : string) : option (nat * string) :=
  if String.prefix "/spec/containers/" path then
    let '(digits, field) := splitAtSlash (string_drop 17 path) in
    match NilEmpty.uint_of_string digits with
    | Some d =>
        if String.eqb (itoa (Nat.of_uint d)) digits
        then Some (Nat.of_uint d, field) else None
    | None => None
    end
  else None.

Definition applyContainerOp (p : PatchOperation) (field : string) (c : Container) : option Container :=
  if String.eqb (Op p) "add" then
    if String.eqb field "/volumeMounts" then
      match Value p with
      | EmptyStrings =>
          Some {| VolumeMounts := Some []; Env := Env c; WorkingDir := WorkingDir c |}
      | _ => None
      end
    else if String.eqb field "/volumeMounts/-" then
      match Value p, VolumeMounts c with
      | VolumeMountValue m, Some ms =>
          Some {| VolumeMounts := Some (ms ++ [m]); Env := Env c; WorkingDir := WorkingDir c |}
      | _, _ => None
      end
    else if String.eqb field "/env" then
      match Value p with
      | EmptyEnvVars =>
          Some {| VolumeMounts := VolumeMounts c; Env := Some []; WorkingDir := WorkingDir c |}
      | _ => None
      end
    else if String.eqb field "/env/-" then
      match Value p, Env c with
      | EnvVarValue e, Some es =>
          Some {| VolumeMounts := VolumeMounts c; Env := Some (es ++ [e]); WorkingDir := WorkingDir c |}
      | _, _ => None
      end
    else None
  else if String.eqb (Op p) "remove" then
    if String.eqb field "/workingDir" then
      if String.eqb (WorkingDir c) "" then None
      else Some {| VolumeMounts := VolumeMounts c; Env := Env c; WorkingDir := "" |}
    else None
  else None.

Definition setContainer (pod : Pod) (i : nat) (c : Container) : Pod :=
  {| Labels := Labels pod; Volumes := Volumes pod;
     Containers := <[i := c]> (Containers pod); NodeSelector := NodeSelector pod |}.

Definition applyOp (p : PatchOperation) (pod : Pod) : option Pod :=
  match parseContainerPath (Path p) with
  | Some (i, field) =>
      match Containers pod !! i with
      | Some c =>
          match applyContainerOp p field c with
          | Some c' => Some (setContainer pod i c')
          | None => None
          end
      | None => None
      end
  | None =>
      if negb (String.eqb (Op p) "add") then None
      else if String.eqb (Path p) "/spec/volumes" then
        match Value p with
        | EmptyStrings =>
            Some {| Labels := Labels pod; Volumes := Some [];
                    Containers := Containers pod; NodeSelector := NodeSelector pod |}
        | _ => None
        end
      else if String.eqb (Path p) "/spec/volumes/-" then
        match Value p, Volumes pod with
        | VolumeValue v, Some vs =>
            Some {| Labels := Labels pod; Volumes := Some (vs ++ [v]);
                    Containers := Containers pod; NodeSelector := NodeSelector pod |}
        | _, _ => None
        end
      else if String.eqb (Path p) "/spec/nodeSelector" then
        match Value p with
        | EmptyMap =>
            Some {| Labels := Labels pod; Volumes := Volumes pod;
                    Containers := Containers pod; NodeSelector := Some ∅ |}
        | _ => None
        end
      else if String.eqb (Path p) "/spec/nodeSelector/kubernetes.wmcloud.org~1nfs-mounted" then
        match Value p, NodeSelector pod with
        | StringValue s, Some m =>
            Some {| Labels := Labels pod; Volumes := Volumes pod;
                    Containers := Containers pod;
                    NodeSelector := Some (<[nfsMountedKey := s]> m) |}
        | _, _ => None
        end
      else None
  end.

Fixpoint applyPatch (ps : list PatchOperation) (pod : Pod) : option Pod :=
  match ps with
  | [] => Some pod
  | p :: rest =>
      match applyOp p pod with
      | Some pod' => applyPatch rest pod'
      | None => None
      end
  end.

(** The operations of [ps], all on container [i], applied to it. *)
Fixpoint applyAt (i : nat) (ps : list PatchOperation) (c : Container) : option Container :=
  match ps with
  | [] => Some c
  | p :: rest =>
      match parseContainerPath (Path p) with
      | Some (j, field) =>
          if Nat.eqb j i then
            match applyContainerOp p field c with
            | Some c' => applyAt i rest c'
            | None => None
            end
          else None
      | None => None
      end
  end.

Definition withContainers (pod : Pod) (containers : list Container) : Pod :=
  {| Labels := Labels pod; Volumes := Volumes pod;
     Containers := containers; NodeSelector := NodeSelector pod |}.

(** ** The Pod after the patch of the full path *)

(** The volumes of the policy that the full path adds to [pod]: those
    without a volume of the same name on it. *)
Definition addedVolumes (admission : VolumeAdmission) (pod : Pod) : list Volume :=
  List.filter (fun volume => negb (hasVolumeByName pod (Name volume))) (Volumes_ admission).

(** Container [c] after the mounts of the volumes [added]. *)
Definition mountsAfter (added : list Volume) (c : Container) : Container :=
  {| VolumeMounts :=
       Some (elems (VolumeMounts c)
             ++ map volumeMount
                  (List.filter (fun volume => negb (hasMountByPath c (Path_ volume))) added));
     Env := Env c;
     WorkingDir := WorkingDir c |}.

Definition envAdded (namespace : string) (c : Container) : list EnvVar :=
  let toolHome := "/data/project/" +:+ Replace1 namespace "tool-" "" in
  (if hasEnvVarSet c "HOME" || hasEnvVarSet c "NO_HOME" then []
   else [ {| Env_Name := "HOME"; Env_Value := toolHome |} ])
  ++ [ {| Env_Name := "TOOL_DATA_DIR"; Env_Value := toolHome |} ].

Definition patchedContainer (namespace : string) (added : list Volume) (c : Container) : Container :=
  {| VolumeMounts := VolumeMounts (mountsAfter added c);
     Env := Some (elems (Env c) ++ envAdded namespace c);
     WorkingDir := if hasEnvVarSet c "NO_HOME" then "" else WorkingDir c |}.

Definition patchedNodeSelector (pod : Pod) : gmap string string :=
  let m := match NodeSelector pod with Some m => m | None => ∅ end in
  match m !! nfsMountedKey with
  | Some _ => m
  | None => <[nfsMountedKey := "true"]> m
  end.

Definition patchedPod (admission : VolumeAdmission) (namespace : string) (pod : Pod) : Pod :=
  {| Labels := Labels pod;
     Volumes := Some (elems (Volumes pod) ++ map hostPathVolume (addedVolumes admission pod));
     Containers := map (patchedContainer namespace (addedVolumes admission pod)) (Containers pod);
     NodeSelector := Some (patchedNodeSelector pod) |}.

(** ** Predicates on patch operations used in the statements *)

(** [strings.HasSuffix(s, suffix)]. *)
Definition HasSuffix (s suf : string) : bool :=
  Nat.leb (String.length suf) (String.length s)
  && String.eqb (string_drop (String.length s - String.length suf) s) suf.

(** [p] appends an environment variable called [name] to container [i]. *)
Definition addsEnv (i : nat) (name : string) (p : PatchOperation) : bool :=
  match Value p with
  | EnvVarValue e =>
      String.eqb (Op p) "add" && String.eqb (Path p) (containerPath i "/env/-")
      && String.eqb (Env_Name e) name
  | _ => false
  end.

(** The path of [p] is the [env] array of container [i], a location above
    it, or a location inside it. *)
Definition affectsEnv (i : nat) (p : PatchOperation) : bool :=
  String.prefix (Path p) (containerPath i "/env")
  || String.prefix (containerPath i "/env") (Path p).

(** [s] has no ['/'], as the decimal form of an index. *)
Fixpoint noSlash (s : string) : bool :=
  match s with
  | EmptyString => true
  | String c r => negb (Ascii.eqb c "/") && noSlash r
  end.

(** A field is the part of a path after the container index; it starts
    with ['/']. *)
Definition isField (f : string) : Prop := exists r, f = String "/" r.

(** The content of [patches] after lines 138-167 when no volume is refused. *)
Definition volumesInit (pod : Pod) : list PatchOperation :=
  if Nat.eqb (length (elems (Volumes pod))) 0 then [opInitVolumes] else [].


(** The volume of the policy is the home volume that a Pod may bring. *)
Definition isHomeVolume (volume : Volume) : bool :=
  String.eqb (Name volume) "home" && String.eqb (Path_ volume) "/data/project".

(** Every hostPath volume of the list is the home volume. *)
Definition onlyHomeHostPaths (volumes : list corev1.Volume) : Prop :=
  forall volume hostPath,
    In volume volumes -> Volume_HostPath volume = Some hostPath ->
    Volume_Name volume = "home" /\ hp_Path hostPath = "/data/project".

(** [p] is an [add] that stores an empty array. *)
Definition createsArray (parent : string) (p : PatchOperation) : Prop :=
  Op p = "add" /\ Path p = parent /\ (Value p = EmptyStrings \/ Value p = EmptyEnvVars).

(** An operation that creates the array at [parent] stands in [l] before
    position [k]. *)
Definition createdBefore (l : list PatchOperation) (k : nat) (parent : string) : Prop :=
  exists j q, j < k /\ l !! j = Some q /\ createsArray parent q.

(** The array at [parent] is present on [pod]. *)
Definition arrayExists (pod : Pod) (parent : string) : Prop :=
  (parent = "/spec/volumes" /\ Volumes pod <> None)
  \/ exists i c, Containers pod !! i = Some c
       /\ ((parent = containerPath i "/volumeMounts" /\ VolumeMounts c <> None)
           \/ (parent = containerPath i "/env" /\ Env c <> None)).

(** ** The reference test corpus ([server_test.go]) *)

Definition referenceHome : Volume :=
  {| Name := "home"; Path_ := "/data/project"; Type_ := ""; ReadOnly := false |}.

Definition referenceLdap : Volume :=
  {| Name := "etc-ldap"; Path_ := "/etc/ldap"; Type_ := ""; ReadOnly := true |}.

Definition referenceVolumes : list Volume := [referenceHome; referenceLdap].

(** The operations that the first reference scenario has before the node
    selector is looked at. *)
Definition referencePatchHead : list PatchOperation :=
  [ opInitVolumes; opInitVolumeMounts 0;
    opAddVolume referenceHome; opAddMount 0 referenceHome;
    opAddVolume referenceLdap; opAddMount 0 referenceLdap;
    opInitEnv 0;
    opAddEnv 0 "HOME" "/data/project/test";
    opAddEnv 0 "TOOL_DATA_DIR" "/data/project/test" ].

Definition referenceAdmission : VolumeAdmission := {| Volumes_ := referenceVolumes |}.

Definition bareContainer : Container :=
  {| VolumeMounts := None; Env := None; WorkingDir := "" |}.

(** The Pod of [TestServerMountsAllVolumesWhenNoneExist]. *)
Definition podNoneExist : Pod :=
  {| Labels := ∅; Volumes := None; Containers := [bareContainer];
     NodeSelector := Some {[ "foo" := "bar" ]} |}.

(** The same Pod without a node selector. *)
Definition podBare : Pod :=
  {| Labels := ∅; Volumes := None; Containers := [bareContainer]; NodeSelector := None |}.

Definition homeVolume : corev1.Volume :=
  {| Volume_Name := "home";
     Volume_HostPath := Some {| hp_Path := "/data/project"; hp_Type := Some "Directory" |} |}.

(** The Pod of [getDummyRequest] with its default parts. *)
Definition podDummy : Pod :=
  {| Labels := ∅; Volumes := Some [homeVolume];
     Containers :=
       [ {| VolumeMounts := Some [ {| Mount_MountPath := "/data/project"; Mount_Name := "home";
                                      Mount_ReadOnly := false |} ];
            Env := Some [ {| Env_Name := "NO_HOME"; Env_Value := "original value" |} ];
            WorkingDir := "/some/path" |} ];
     NodeSelector := None |}.

(** The same Pod with [HOME] set instead of [NO_HOME]. *)
Definition podHomeSet : Pod :=
  {| Labels := ∅; Volumes := Some [homeVolume];
     Containers :=
       [ {| VolumeMounts := Some [ {| Mount_MountPath := "/data/project"; Mount_Name := "home";
                                      Mount_ReadOnly := false |} ];
            Env := Some [ {| Env_Name := "HOME"; Env_Value := "/foobar" |} ];
            WorkingDir := "/some/path" |} ];
     NodeSelector := None |}.

(** A Pod that opts out of the volumes. *)
Definition podMountNone : Pod :=
  {| Labels := {[ MountConfigLabel := MountNone ]}; Volumes := None;
     Containers := [bareContainer]; NodeSelector := None |}.

(** A Pod that brings a hostPath volume of its own, under the name [home]. *)
Definition podForeign : Pod :=
  {| Labels := ∅;
     Volumes := Some [ {| Volume_Name := "home";
                          Volume_HostPath := Some {| hp_Path := "/etc"; hp_Type := None |} |} ];
     Containers := [bareContainer]; NodeSelector := None |}.

(** [podBare] after the patch of a first run in namespace [tool-test]. *)
Definition podBarePatched : Pod :=
  {| Labels := ∅;
     Volumes := Some
       [ {| Volume_Name := "home";
            Volume_HostPath := Some {| hp_Path := "/data/project"; hp_Type := Some "" |} |};
         {| Volume_Name := "etc-ldap";
            Volume_HostPath := Some {| hp_Path := "/etc/ldap"; hp_Type := Some "" |} |} ];
     Containers :=
       [ {| VolumeMounts := Some
              [ {| Mount_MountPath := "/data/project"; Mount_Name := "home"; Mount_ReadOnly := false |};
                {| Mount_MountPath := "/etc/ldap"; Mount_Name := "etc-ldap"; Mount_ReadOnly := true |} ];
            Env := Some [ {| Env_Name := "HOME"; Env_Value := "/data/project/test" |};
                          {| Env_Name := "TOOL_DATA_DIR"; Env_Value := "/data/project/test" |} ];
            WorkingDir := "" |} ];
     NodeSelector := Some {[ nfsMountedKey := "true" ]} |}.

(** A policy with the home volume only, and [podBare] after the patch of a
    first run with it in namespace [tool-test]. *)
Definition homeOnlyAdmission : VolumeAdmission := {| Volumes_ := [referenceHome] |}.

Definition podBarePatchedHome : Pod :=
  {| Labels := ∅;
     Volumes := Some
       [ {| Volume_Name := "home";
            Volume_HostPath := Some {| hp_Path := "/data/project"; hp_Type := Some "" |} |} ];
     Containers :=
       [ {| VolumeMounts := Some
              [ {| Mount_MountPath := "/data/project"; Mount_Name := "home"; Mount_ReadOnly := false |} ];
            Env := Some [ {| Env_Name := "HOME"; Env_Value := "/data/project/test" |};
                          {| Env_Name := "TOOL_DATA_DIR"; Env_Value := "/data/project/test" |} ];
            WorkingDir := "" |} ];
     NodeSelector := Some {[ nfsMountedKey := "true" ]} |}.

Definition samplePods : list Pod :=
  [podNoneExist; podBare; podDummy; podHomeSet; podMountNone; podForeign; podBarePatched;
   podBarePatchedHome].

(** A stand-in for the JSON library on the reference corpus: the raw object
    is the number of a sample Pod, the patch is encoded as one byte per
    operation. *)
Definition sampleUnmarshal (raw : list Byte.byte) : Pod + string :=
  match raw with
  | [b] => match samplePods !! Byte.to_nat b with
           | Some pod => inl pod
           | None => inr "json: cannot unmarshal object into Go value of type v1.Pod"
           end
  | _ => inr "unexpected end of JSON input"
  end.

Definition sampleJson : Json :=
  {| json_Unmarshal := sampleUnmarshal;
     json_Marshal := fun ps => inl (map (fun _ => Byte.x2c) ps);
     HostPath_String := hp_Path |}.


Definition sampleReview (namespace : string) (b : Byte.byte) : AdmissionReview :=
  {| Request := {| req_UID := "e911857d-c318-11e8-bbad-025000000001";
                   Namespace := namespace; Object_Raw := [b] |};
     Response := None |}.

(** ** Further vocabulary and inputs *)

(** [p] appends to the volumes of the Pod. *)
Definition isVolumeAdd (p : PatchOperation) : bool :=
  String.eqb (Path p) "/spec/volumes/-".

(** [l] is the beginning of [l']. *)
Definition extends {A : Type} (l l' : list A) : Prop := exists more, l' = l ++ more.

(** A Pod whose mount-mode label is spelled with a capital letter. *)
Definition podInvalidLabel : Pod :=
  {| Labels := {[ MountConfigLabel := "All" ]}; Volumes := None;
     Containers := [bareContainer]; NodeSelector := None |}.

(** A Pod with the home volume followed by a hostPath volume of its own. *)
Definition podSecondForeign : Pod :=
  {| Labels := ∅;
     Volumes := Some [ homeVolume;
                       {| Volume_Name := "data";
                          Volume_HostPath := Some {| hp_Path := "/var/lib"; hp_Type := None |} |} ];
     Containers := [bareContainer]; NodeSelector := None |}.

(** A Pod that pins the scheduling key itself. *)
Definition podPinned : Pod :=
  {| Labels := ∅; Volumes := None; Containers := [bareContainer];
     NodeSelector := Some {[ nfsMountedKey := "false" ]} |}.

(** [podBare] with a label of its own. *)
Definition podLabelled : Pod :=
  {| Labels := {[ "app" := "web" ]}; Volumes := None; Containers := [bareContainer];
     NodeSelector := None |}.

Definition furtherPods : list Pod :=
  [podInvalidLabel; podSecondForeign; podPinned; podBare; podLabelled].

(** The stand-in of [sampleJson] over [furtherPods]. *)
Definition furtherJson : Json :=
  {| json_Unmarshal := fun raw =>
       match raw with
       | [b] => match furtherPods !! Byte.to_nat b with
                | Some pod => inl pod
                | None => inr "json: cannot unmarshal object into Go value of type v1.Pod"
                end
       | _ => inr "unexpected end of JSON input"
       end;
     json_Marshal := fun ps => inl (map (fun _ => Byte.x2c) ps);
     HostPath_String := hp_Path |}.

Definition rawReview (namespace : string) (raw : list Byte.byte) : AdmissionReview :=
  {| Request := {| req_UID := "e911857d-c318-11e8-bbad-025000000001";
                   Namespace := namespace; Object_Raw := raw |};
     Response := None |}.

(** * Properties *)

(** ** Strings *)

#[local] Arguments String.append !s1 s2 : simpl nomatch.

Lemma string_app_inv_head (a x y : string) : a +:+ x = a +:+ y -> x = y.
Proof.
  induction a as [|c a IH]; simpl; [tauto|].
  intros H. injection H as H. auto.
Qed.

Lemma string_app_assoc (a b c : string) : (a +:+ b) +:+ c = a +:+ (b +:+ c).
Proof. induction a as [|x a IH]; simpl; [reflexivity | now rewrite IH]. Qed.

Lemma containerPath_app (i : nat) (f g : string) :
  containerPath i (f +:+ g) = containerPath i f +:+ g.
Proof. unfold containerPath. now rewrite !string_app_assoc. Qed.

Lemma prefix_cons (c d : ascii) (a b : string) :
  String.prefix (String c a) (String d b) = Ascii.eqb c d && String.prefix a b.
Proof.
  cbn [String.prefix]. destruct (ascii_dec c d) as [->|H].
  - now rewrite Ascii.eqb_refl.
  - apply Ascii.eqb_neq in H. now rewrite H.
Qed.

Lemma prefix_nil_r (c : ascii) (a : string) : String.prefix (String c a) "" = false.
Proof. reflexivity. Qed.

Lemma prefix_nil_l (a : string) : String.prefix "" a = true.
Proof. destruct a; reflexivity. Qed.

Local Arguments String.prefix : simpl never.

Lemma prefix_app_cancel (a x y : string) :
  String.prefix (a +:+ x) (a +:+ y) = String.prefix x y.
Proof.
  induction a as [|c a IH]; cbn [String.append]; [reflexivity|].
  now rewrite prefix_cons, Ascii.eqb_refl.
Qed.

Lemma prefix_app_drop (pre s : string) :
  String.prefix pre s = true -> s = pre +:+ string_drop (String.length pre) s.
Proof.
  revert s. induction pre as [|c pre IH]; intros s H.
  - destruct s; reflexivity.
  - destruct s as [|d s]; [discriminate|].
    rewrite prefix_cons in H. apply andb_true_iff in H as [Hc H].
    apply Ascii.eqb_eq in Hc as ->.
    cbn [String.append String.length string_drop]. f_equal. auto.
Qed.

(** Stripping the prefix [tool-] is what [strings.Replace(ns, "tool-", "", 1)]
    does on a namespace that starts with it. *)
Lemma Replace1_prefix (s old new : string) :
  String.prefix old s = true ->
  Replace1 s old new = new +:+ string_drop (String.length old) s.
Proof.
  intros H. destruct s; cbn [Replace1]; rewrite H; reflexivity.
Qed.

(** ** Decimal indices *)

Lemma string_of_uint_noSlash (d : Decimal.uint) :
  noSlash (NilEmpty.string_of_uint d) = true.
Proof. induction d; simpl; auto. Qed.

Lemma itoa_noSlash (i : nat) : noSlash (itoa i) = true.
Proof. apply string_of_uint_noSlash. Qed.

Lemma itoa_inj (i j : nat) : itoa i = itoa j -> i = j.
Proof.
  unfold itoa. intros H.
  apply (f_equal NilEmpty.uint_of_string) in H.
  rewrite !NilEmpty.usu in H. injection H as H.
  apply (f_equal Nat.of_uint) in H.
  now rewrite !DecimalNat.Unsigned.of_to in H.
Qed.

Lemma splitAtSlash_app (a r : string) :
  noSlash a = true -> splitAtSlash (a +:+ String "/" r) = (a, String "/" r).
Proof.
  induction a as [|c a IH]; simpl; intros H; [reflexivity|].
  apply andb_true_iff in H as [Hc Ha].
  apply negb_true_iff in Hc. rewrite Hc, (IH Ha). reflexivity.
Qed.

Lemma prefix_noSlash (a b x y : string) :
  noSlash a = true -> noSlash b = true ->
  String.prefix (a +:+ String "/" x) (b +:+ String "/" y) = true ->
  a = b /\ String.prefix x y = true.
Proof.
  revert b. induction a as [|c a IH]; intros [|d b] Ha Hb H;
    cbn [String.append noSlash] in *; rewrite prefix_cons in H;
    apply andb_true_iff in H as [Hc H].
  - auto.
  - apply Ascii.eqb_eq in Hc as <-. discriminate.
  - apply Ascii.eqb_eq in Hc as ->. discriminate.
  - apply Ascii.eqb_eq in Hc as ->.
    apply andb_true_iff in Ha as [_ Ha]. apply andb_true_iff in Hb as [_ Hb].
    destruct (IH b Ha Hb H) as [-> Hxy]. auto.
Qed.

Lemma containerPath_prefix (i j : nat) (f g : string) :
  isField f -> isField g ->
  String.prefix (containerPath i f) (containerPath j g) = true ->
  i = j /\ String.prefix f g = true.
Proof.
  intros [x ->] [y ->]. unfold containerPath. rewrite prefix_app_cancel.
  intros H. apply prefix_noSlash in H as [H1 H2]; auto using itoa_noSlash.
  split; [now apply itoa_inj|].
  now rewrite prefix_cons.
Qed.

Lemma containerPath_inj (i j : nat) (f g : string) :
  isField f -> isField g ->
  containerPath i f = containerPath j g -> i = j /\ f = g.
Proof.
  intros [x ->] [y ->]. unfold containerPath. intros H.
  apply string_app_inv_head in H.
  apply (f_equal splitAtSlash) in H.
  rewrite !splitAtSlash_app in H by apply itoa_noSlash.
  injection H as H1 H2. split; [now apply itoa_inj | now rewrite H2].
Qed.

Lemma parseContainerPath_containerPath (i : nat) (f : string) :
  isField f -> parseContainerPath (containerPath i f) = Some (i, f).
Proof.
  intros [x ->]. unfold parseContainerPath, containerPath.
  change "/spec/containers/" with ("/spec/containers/" +:+ "") at 1.
  rewrite prefix_app_cancel, prefix_nil_l.
  change (string_drop 17 ("/spec/containers/" +:+ itoa i +:+ String "/" x))
    with (itoa i +:+ String "/" x).
  rewrite splitAtSlash_app by apply itoa_noSlash.
  unfold itoa at 1. rewrite NilEmpty.usu, DecimalNat.Unsigned.of_to.
  now rewrite String.eqb_refl.
Qed.

(** ** The loops *)

Lemma in_rangeFrom {A B : Type} (body : nat -> A -> list B) (k : nat) (l : list A) (p : B) :
  In p (rangeFrom body k l) <-> exists j x, l !! j = Some x /\ In p (body (k + j) x).
Proof.
  revert k. induction l as [|x l IH]; intros k; simpl.
  - split; [tauto | intros (j & y & H & _); discriminate].
  - rewrite in_app_iff, IH. split.
    + intros [H | (j & y & Hj & H)].
      * exists 0, x. rewrite Nat.add_0_r. auto.
      * exists (S j), y. rewrite Nat.add_succ_r. auto.
    + intros ([|j] & y & Hj & H); simpl in Hj.
      * injection Hj as ->. rewrite Nat.add_0_r in H. auto.
      * right. exists j, y. rewrite Nat.add_succ_r in H. auto.
Qed.

Lemma filter_rangeFrom {A B : Type} (f : B -> bool) (body : nat -> A -> list B) (k : nat) (l : list A) :
  List.filter f (rangeFrom body k l) = rangeFrom (fun i x => List.filter f (body i x)) k l.
Proof.
  revert k. induction l as [|x l IH]; intros k; simpl; [reflexivity|].
  now rewrite List.filter_app, IH.
Qed.

Lemma rangeFrom_ext {A B : Type} (body body' : nat -> A -> list B) (k : nat) (l : list A) :
  (forall j x, l !! j = Some x -> body (k + j) x = body' (k + j) x) ->
  rangeFrom body k l = rangeFrom body' k l.
Proof.
  revert k. induction l as [|x l IH]; intros k H; simpl; [reflexivity|].
  f_equal.
  - specialize (H 0 x eq_refl). now rewrite Nat.add_0_r in H.
  - apply IH. intros j y Hj. specialize (H (S j) y Hj).
    now rewrite Nat.add_succ_r in H.
Qed.

(** A loop whose body emits [x] at index [i] only emits it once. *)
Lemma rangeFrom_single {A B : Type} (x : B) (i k : nat) (l : list A) :
  rangeFrom (fun j _ => if Nat.eqb j i then [x] else []) k l
  = if Nat.leb k i && Nat.ltb i (k + length l) then [x] else [].
Proof.
  revert k. induction l as [|y l IH]; intros k; simpl.
  - destruct (Nat.leb_spec k i), (Nat.ltb_spec i (k + 0)); simpl; auto; lia.
  - rewrite IH.
    destruct (Nat.eqb_spec k i), (Nat.leb_spec (S k) i), (Nat.leb_spec k i),
      (Nat.ltb_spec i (S k + length l)), (Nat.ltb_spec i (k + S (length l)));
      simpl; auto; lia.
Qed.

Section Properties.
Context `{J : Json}.

Lemma findForeignHostPath_None (idx : nat) (volumes : list corev1.Volume) :
  findForeignHostPath idx volumes = None <-> onlyHomeHostPaths volumes.
Proof.
  unfold onlyHomeHostPaths. revert idx.
  induction volumes as [|volume rest IH]; intros idx; simpl.
  - split; [intros _ ? ? [] | auto].
  - destruct (Volume_HostPath volume) as [hostPath|] eqn:Hhp.
    + destruct (String.eqb_spec (Volume_Name volume) "home") as [Hn|Hn];
        destruct (String.eqb_spec (hp_Path hostPath) "/data/project") as [Hp|Hp]; simpl.
      * rewrite IH. split.
        -- intros H v hp [<-|Hin] Hv; [|eauto]. rewrite Hhp in Hv. now injection Hv as <-.
        -- eauto.
      * split; [discriminate|]. intros H. destruct (H volume hostPath); auto. congruence.
      * split; [discriminate|]. intros H. destruct (H volume hostPath); auto. congruence.
      * split; [discriminate|]. intros H. destruct (H volume hostPath); auto. congruence.
    + rewrite IH. split.
      * intros H v hp [<-|Hin] Hv; [congruence | eauto].
      * eauto.
Qed.

(** The response and the patch list on the paths that pass validation. *)
Lemma run_validated (admission : VolumeAdmission) (review : AdmissionReview) (pod : Pod) :
  json_Unmarshal (Object_Raw (Request review)) = inl pod ->
  getLabelOrDefault pod MountConfigLabel MountAll = MountAll
    \/ getLabelOrDefault pod MountConfigLabel MountAll = MountNone ->
  HasPrefix (Namespace (Request review)) "tool-" = true ->
  onlyHomeHostPaths (elems (Volumes pod)) ->
  HandleAdmission_run admission review =
    if String.eqb (getLabelOrDefault pod MountConfigLabel MountAll) MountNone then
      {| response := patchResponse (req_UID (Request review)) "No volumes requested"
                       match json_Marshal (volumesInit pod) with
                       | inl bytes => Some bytes
                       | inr _ => None
                       end;
         patches := volumesInit pod |}
    else
      let patches1 :=
        volumesInit pod ++ mountAllPatches admission (Namespace (Request review)) pod in
      match json_Marshal patches1 with
      | inr err =>
          {| response := messageResponse (req_UID (Request review)) err;
             patches := patches1 |}
      | inl bytes =>
          {| response := patchResponse (req_UID (Request review)) "Volumes mounted" (Some bytes);
             patches := patches1 |}
      end.
Proof.
  intros Hpod Hlabel Hns Hvols. unfold HandleAdmission_run. cbv zeta.
  rewrite Hpod, Hns.
  replace (negb (String.eqb (getLabelOrDefault pod MountConfigLabel MountAll) MountAll)
           && negb (String.eqb (getLabelOrDefault pod MountConfigLabel MountAll) MountNone))
    with false by (destruct Hlabel as [-> | ->]; reflexivity).
  cbn [negb]. unfold volumesInit.
  apply (findForeignHostPath_None 0) in Hvols. rewrite Hvols.
  destruct (Nat.eqb (length (elems (Volumes pod))) 0); reflexivity.
Qed.

Lemma run_validated_patches (admission : VolumeAdmission) (review : AdmissionReview) (pod : Pod) :
  json_Unmarshal (Object_Raw (Request review)) = inl pod ->
  getLabelOrDefault pod MountConfigLabel MountAll = MountAll
    \/ getLabelOrDefault pod MountConfigLabel MountAll = MountNone ->
  HasPrefix (Namespace (Request review)) "tool-" = true ->
  onlyHomeHostPaths (elems (Volumes pod)) ->
  patches (HandleAdmission_run admission review) =
    if String.eqb (getLabelOrDefault pod MountConfigLabel MountAll) MountNone
    then volumesInit pod
    else volumesInit pod ++ mountAllPatches admission (Namespace (Request review)) pod.
Proof.
  intros Hpod Hlabel Hns Hvols.
  rewrite (run_validated admission review pod Hpod Hlabel Hns Hvols).
  destruct (String.eqb _ MountNone); [reflexivity|]. cbv zeta.
  destruct (json_Marshal (volumesInit pod ++ mountAllPatches admission _ pod)); reflexivity.
Qed.

(** A request that is allowed has passed every check. *)
Lemma run_allowed_inv (admission : VolumeAdmission) (review : AdmissionReview) (pod : Pod) :
  json_Unmarshal (Object_Raw (Request review)) = inl pod ->
  Allowed (response (HandleAdmission_run admission review)) = true ->
  (getLabelOrDefault pod MountConfigLabel MountAll = MountAll
    \/ getLabelOrDefault pod MountConfigLabel MountAll = MountNone)
  /\ HasPrefix (Namespace (Request review)) "tool-" = true
  /\ onlyHomeHostPaths (elems (Volumes pod)).
Proof.
  intros Hpod. unfold HandleAdmission_run. cbv zeta. rewrite Hpod.
  destruct (String.eqb_spec (getLabelOrDefault pod MountConfigLabel MountAll) MountAll) as [Ha|Ha];
    destruct (String.eqb_spec (getLabelOrDefault pod MountConfigLabel MountAll) MountNone) as [Hn|Hn];
    cbn [negb andb]; try discriminate;
    (destruct (HasPrefix (Namespace (Request review)) "tool-"); cbn [negb]; [|discriminate]);
    (destruct (findForeignHostPath 0 (elems (Volumes pod))) eqn:Hf;
     [ destruct (Nat.eqb (length (elems (Volumes pod))) 0) eqn:Hlen; cbn [negb];
       [ apply Nat.eqb_eq in Hlen; destruct (elems (Volumes pod)); [discriminate Hf | discriminate Hlen]
       | discriminate ]
     | apply findForeignHostPath_None in Hf; auto ]).
Qed.

Lemma run_UID (admission : VolumeAdmission) (review : AdmissionReview) :
  UID (response (HandleAdmission_run admission review)) = req_UID (Request review).
Proof.
  unfold HandleAdmission_run. cbv zeta. repeat case_match; reflexivity.
Qed.

Lemma run_denied_no_patch (admission : VolumeAdmission) (review : AdmissionReview) :
  Allowed (response (HandleAdmission_run admission review)) = false ->
  Patch (response (HandleAdmission_run admission review)) = None
  /\ PatchType_ (response (HandleAdmission_run admission review)) = None.
Proof.
  unfold HandleAdmission_run. cbv zeta.
  repeat case_match; cbn; intros; try discriminate; auto.
Qed.

Lemma Allowed_not_true (b : bool) : b <> true -> b = false.
Proof. destruct b; congruence. Qed.

(** C1: a Pod that decodes and declares a hostPath volume whose name and
    path are not exactly [home] and [/data/project] is denied, and the
    response carries no patch, whatever the namespace, the mount-mode
    label and the rest of the Pod are. *)
Theorem foreign_hostPath_denied
    (admission : VolumeAdmission) (review : AdmissionReview) (pod : Pod)
    (volume : corev1.Volume) (hostPath : HostPathVolumeSource) :
  json_Unmarshal (Object_Raw (Request review)) = inl pod ->
  In volume (elems (Volumes pod)) ->
  Volume_HostPath volume = Some hostPath ->
  (Volume_Name volume, hp_Path hostPath) <> ("home", "/data/project") ->
  exists r, Response (HandleAdmission admission review) = Some r
    /\ Allowed r = false /\ Patch r = None /\ PatchType_ r = None.
Proof.
  intros Hpod Hin Hhp Hne.
  exists (response (HandleAdmission_run admission review)).
  split; [reflexivity|].
  assert (Hden : Allowed (response (HandleAdmission_run admission review)) = false).
  { apply Allowed_not_true. intros Hallowed.
    destruct (run_allowed_inv admission review pod Hpod Hallowed) as (_ & _ & Honly).
    destruct (Honly volume hostPath Hin Hhp) as [Hn Hp].
    apply Hne. now rewrite Hn, Hp. }
  split; [exact Hden | now apply run_denied_no_patch].
Qed.

(** C3: a request whose namespace does not start with [tool-] is denied
    without a patch, for every Pod that decodes. *)
Theorem non_tool_namespace_denied
    (admission : VolumeAdmission) (review : AdmissionReview) (pod : Pod) :
  json_Unmarshal (Object_Raw (Request review)) = inl pod ->
  HasPrefix (Namespace (Request review)) "tool-" = false ->
  exists r, Response (HandleAdmission admission review) = Some r
    /\ Allowed r = false /\ Patch r = None /\ PatchType_ r = None.
Proof.
  intros Hpod Hns.
  exists (response (HandleAdmission_run admission review)).
  split; [reflexivity|].
  assert (Hden : Allowed (response (HandleAdmission_run admission review)) = false).
  { apply Allowed_not_true. intros Hallowed.
    destruct (run_allowed_inv admission review pod Hpod Hallowed) as (_ & Hpre & _).
    congruence. }
  split; [exact Hden | now apply run_denied_no_patch].
Qed.

(** C6: a request that passes validation and whose mount-mode label is
    [none] is allowed; the patch list is empty, or it is the single
    initialisation of [/spec/volumes] and the Pod declares no volume.
    The response carries the serialised list. *)
Theorem mount_none_allowed
    (admission : VolumeAdmission) (review : AdmissionReview) (pod : Pod) :
  json_Unmarshal (Object_Raw (Request review)) = inl pod ->
  HasPrefix (Namespace (Request review)) "tool-" = true ->
  onlyHomeHostPaths (elems (Volumes pod)) ->
  getLabelOrDefault pod MountConfigLabel MountAll = MountNone ->
  exists r, Response (HandleAdmission admission review) = Some r
    /\ Allowed r = true
    /\ PatchType_ r = Some PatchTypeJSONPatch
    /\ (patches (HandleAdmission_run admission review) = []
        \/ (patches (HandleAdmission_run admission review) = [opInitVolumes]
            /\ elems (Volumes pod) = []))
    /\ Patch r = match json_Marshal (patches (HandleAdmission_run admission review)) with
                 | inl bytes => Some bytes
                 | inr _ => None
                 end.
Proof.
  intros Hpod Hns Hvols Hlabel.
  exists (response (HandleAdmission_run admission review)).
  split; [reflexivity|].
  rewrite (run_validated admission review pod Hpod (or_intror Hlabel) Hns Hvols).
  rewrite Hlabel. cbn [String.eqb]. change (String.eqb MountNone MountNone) with true.
  cbn [response patches patchResponse Allowed PatchType_ Patch].
  repeat split. unfold volumesInit.
  destruct (elems (Volumes pod)); cbn; auto.
Qed.


(** C10: a response that is not allowed carries no patch and no patch
    type, and its UID is the UID of the request. *)
Theorem denied_response_shape
    (admission : VolumeAdmission) (review : AdmissionReview) (r : AdmissionResponse) :
  Response (HandleAdmission admission review) = Some r ->
  Allowed r = false ->
  Patch r = None /\ PatchType_ r = None /\ UID r = req_UID (Request review).
Proof.
  unfold HandleAdmission. cbn [Response]. intros [= <-] Hden.
  destruct (run_denied_no_patch admission review Hden) as [Hp Ht].
  auto using run_UID.
Qed.

(** The full path: the patch list and the response of an allowed request. *)
Lemma run_all_allowed (admission : VolumeAdmission) (review : AdmissionReview) (pod : Pod) :
  json_Unmarshal (Object_Raw (Request review)) = inl pod ->
  getLabelOrDefault pod MountConfigLabel MountAll = MountAll ->
  Allowed (response (HandleAdmission_run admission review)) = true ->
  HasPrefix (Namespace (Request review)) "tool-" = true
  /\ onlyHomeHostPaths (elems (Volumes pod))
  /\ patches (HandleAdmission_run admission review)
     = volumesInit pod ++ mountAllPatches admission (Namespace (Request review)) pod
  /\ exists bytes,
       json_Marshal (patches (HandleAdmission_run admission review)) = inl bytes
       /\ response (HandleAdmission_run admission review)
          = patchResponse (req_UID (Request review)) "Volumes mounted" (Some bytes).
Proof.
  intros Hpod Hlabel Hallowed.
  destruct (run_allowed_inv admission review pod Hpod Hallowed) as (Hl & Hns & Hvols).
  revert Hallowed. rewrite (run_validated admission review pod Hpod Hl Hns Hvols).
  rewrite Hlabel. change (String.eqb MountAll MountNone) with false. cbv zeta.
  destruct (json_Marshal (volumesInit pod ++ mountAllPatches admission _ pod))
    as [bytes|err] eqn:Hm; cbn; [|discriminate].
  intros _. split; [exact Hns|]. split; [exact Hvols|]. split; [reflexivity|].
  exists bytes. auto.
Qed.

Lemma in_volumePatches (pod : Pod) (volume : Volume) (p : PatchOperation) :
  In p (volumePatches pod volume) ->
  hasVolumeByName pod (Name volume) = false
  /\ (p = opAddVolume volume
      \/ exists i c, Containers pod !! i = Some c
           /\ hasMountByPath c (Path_ volume) = false /\ p = opAddMount i volume).
Proof.
  unfold volumePatches. destruct (hasVolumeByName pod (Name volume)); [intros []|].
  intros [<-|H]; [auto|]. split; [reflexivity|]. right.
  apply in_rangeFrom in H as (i & c & Hi & H). exists i, c.
  unfold mountPatch in H. destruct (hasMountByPath c (Path_ volume)); [destruct H|].
  destruct H as [<-|[]]. auto.
Qed.

Lemma in_nodeSelectorPatches (pod : Pod) (p : PatchOperation) :
  In p (nodeSelectorPatches pod) -> p = opInitNodeSelector \/ p = opNfsMounted.
Proof.
  unfold nodeSelectorPatches.
  destruct (NodeSelector pod) as [m|].
  - destruct (m !! nfsMountedKey); cbn; intuition auto.
  - rewrite lookup_empty. cbn. intuition auto.
Qed.

(** The operations of the full path, by kind. *)
Lemma in_all_patches (admission : VolumeAdmission) (namespace : string) (pod : Pod)
    (p : PatchOperation) :
  In p (volumesInit pod ++ mountAllPatches admission namespace pod) ->
  p = opInitVolumes
  \/ (exists i, p = opInitVolumeMounts i)
  \/ (exists volume, p = opAddVolume volume)
  \/ (exists i volume, p = opAddMount i volume)
  \/ (exists i c, Containers pod !! i = Some c /\ In p (envPatches namespace i c))
  \/ p = opInitNodeSelector
  \/ p = opNfsMounted.
Proof.
  unfold mountAllPatches. rewrite !in_app_iff.
  intros [H|[H|[H|[H|H]]]].
  - unfold volumesInit in H. destruct (Nat.eqb _ 0); [|destruct H].
    destruct H as [<-|[]]. auto.
  - apply in_rangeFrom in H as (i & c & _ & H). unfold volumeMountsInit in H.
    destruct (Nat.eqb _ 0); [|destruct H]. destruct H as [<-|[]]. eauto.
  - apply in_flat_map in H as (volume & _ & H).
    apply in_volumePatches in H as (_ & [->|(i & c & _ & _ & ->)]); eauto 10.
  - apply in_rangeFrom in H as (i & c & Hi & H). eauto 10.
  - apply in_nodeSelectorPatches in H as [->| ->]; auto 10.
Qed.

Lemma containerPath_eqb (i j : nat) (f : string) :
  isField f -> String.eqb (containerPath i f) (containerPath j f) = Nat.eqb i j.
Proof.
  intros Hf. destruct (Nat.eqb_spec i j) as [->|Hne].
  - apply String.eqb_refl.
  - apply String.eqb_neq. intros H.
    now apply containerPath_inj in H as [H _].
Qed.

Lemma addsEnv_opAddEnv (i j : nat) (name name' value : string) :
  addsEnv i name (opAddEnv j name' value) = Nat.eqb j i && String.eqb name' name.
Proof.
  unfold addsEnv, opAddEnv. cbn [Value Op Path Env_Name].
  rewrite containerPath_eqb by (now eexists). reflexivity.
Qed.

Lemma filter_none {A : Type} (f : A -> bool) (l : list A) :
  (forall x, In x l -> f x = false) -> List.filter f l = [].
Proof.
  induction l as [|x l IH]; intros H; simpl; [reflexivity|].
  rewrite (H x) by (now left). apply IH. intros y Hy. apply H. now right.
Qed.

Lemma filter_addsEnv_envPatches (namespace name : string) (i j : nat) (c : Container) :
  List.filter (addsEnv i name) (envPatches namespace j c)
  = if Nat.eqb j i
    then List.filter (fun p => match Value p with
                               | EnvVarValue e => String.eqb (Env_Name e) name
                               | _ => false
                               end) (envPatches namespace j c)
    else [].
Proof.
  unfold envPatches. cbv zeta.
  destruct (Env c); destruct (hasEnvVarSet c "NO_HOME");
    destruct (hasEnvVarSet c "HOME"); destruct (negb (String.eqb (WorkingDir c) ""));
    cbn [negb app List.filter];
    rewrite ?addsEnv_opAddEnv; cbn [addsEnv Value opInitEnv opRemoveWorkingDir opAddEnv Env_Name];
    destruct (Nat.eqb j i); cbn [andb];
    repeat (match goal with |- context [String.eqb ?a ?b] => destruct (String.eqb a b) end);
    reflexivity.
Qed.

(** C5: on the full path every container gets exactly one added
    [TOOL_DATA_DIR] entry, with value [/data/project/{tenant}] where the
    namespace is [tool-{tenant}], whether [HOME] or [NO_HOME] is set or
    not; an added [HOME] entry has the same value. *)
Theorem tool_data_dir_once
    (admission : VolumeAdmission) (review : AdmissionReview) (pod : Pod) (i : nat) :
  json_Unmarshal (Object_Raw (Request review)) = inl pod ->
  getLabelOrDefault pod MountConfigLabel MountAll = MountAll ->
  Allowed (response (HandleAdmission_run admission review)) = true ->
  i < length (Containers pod) ->
  exists tenant,
    Namespace (Request review) = "tool-" +:+ tenant
    /\ List.filter (addsEnv i "TOOL_DATA_DIR") (patches (HandleAdmission_run admission review))
       = [opAddEnv i "TOOL_DATA_DIR" ("/data/project/" +:+ tenant)]
    /\ forall p, In p (patches (HandleAdmission_run admission review)) ->
         addsEnv i "HOME" p = true ->
         p = opAddEnv i "HOME" ("/data/project/" +:+ tenant).
Proof.
  intros Hpod Hlabel Hallowed Hi.
  destruct (run_all_allowed admission review pod Hpod Hlabel Hallowed)
    as (Hns & _ & Hpatches & _).
  exists (string_drop 5 (Namespace (Request review))).
  split; [exact (prefix_app_drop "tool-" _ Hns)|].
  rewrite Hpatches.
  assert (Hhome : Replace1 (Namespace (Request review)) "tool-" ""
                  = string_drop 5 (Namespace (Request review))).
  { now rewrite Replace1_prefix by exact Hns. }
  split.
  - unfold mountAllPatches. rewrite !List.filter_app.
    rewrite (filter_none _ (volumesInit pod)), (filter_none _ (rangeFrom volumeMountsInit _ _)),
      (filter_none _ (flat_map _ _)), (filter_none _ (nodeSelectorPatches pod)).
    + rewrite filter_rangeFrom.
      rewrite (rangeFrom_ext _
        (fun j _ => if Nat.eqb j i
                    then [opAddEnv i "TOOL_DATA_DIR"
                            ("/data/project/" +:+ string_drop 5 (Namespace (Request review)))]
                    else [])).
      * rewrite rangeFrom_single. cbn [Nat.leb andb app].
        apply Nat.ltb_lt in Hi. cbn [Nat.add]. now rewrite Hi.
      * intros j c _. cbn [Nat.add]. rewrite filter_addsEnv_envPatches.
        destruct (Nat.eqb_spec j i) as [->|]; [|reflexivity].
        unfold envPatches. cbv zeta. rewrite Hhome.
        destruct (Env c); destruct (hasEnvVarSet c "NO_HOME");
          destruct (hasEnvVarSet c "HOME"); destruct (negb (String.eqb (WorkingDir c) ""));
          reflexivity.
    + intros p Hp. apply in_nodeSelectorPatches in Hp as [->| ->]; reflexivity.
    + intros p Hp. apply in_flat_map in Hp as (volume & _ & Hp).
      apply in_volumePatches in Hp as (_ & [->|(k & c & _ & _ & ->)]); reflexivity.
    + intros p Hp. apply in_rangeFrom in Hp as (k & c & _ & Hp).
      unfold volumeMountsInit in Hp. destruct (Nat.eqb _ 0); [|destruct Hp].
      destruct Hp as [<-|[]]. reflexivity.
    + intros p Hp. unfold volumesInit in Hp. destruct (Nat.eqb _ 0); [|destruct Hp].
      destruct Hp as [<-|[]]. reflexivity.
  - intros p Hp Hadds.
    apply in_all_patches in Hp
      as [->|[(k & ->)|[(v & ->)|[(k & v & ->)|[(k & c & Hk & Hp)|[->| ->]]]]]];
      try discriminate Hadds.
    assert (Hf : In p (List.filter (addsEnv i "HOME") (envPatches (Namespace (Request review)) k c))).
    { apply filter_In. auto. }
    rewrite filter_addsEnv_envPatches in Hf.
    destruct (Nat.eqb_spec k i) as [->|]; [|destruct Hf].
    unfold envPatches in Hf. cbv zeta in Hf. rewrite Hhome in Hf.
    destruct (Env c); destruct (hasEnvVarSet c "NO_HOME");
      destruct (hasEnvVarSet c "HOME"); destruct (negb (String.eqb (WorkingDir c) ""));
      cbn in Hf; intuition.
Qed.

(** C9 (amended): with the reference policy, a Pod in [tool-test] without
    volumes, with one container that has no env and no volume mounts, and
    without the mount-mode label, gets nine operations (init volumes, init
    volumeMounts, two volume and mount pairs, init env, HOME,
    TOOL_DATA_DIR) followed by the [nfs-mounted] label alone, ten in all,
    when its node selector is present without that key, and followed by
    the node selector initialisation and the label, eleven in all, when it
    has no node selector.  The request is allowed with that list once it
    is serialised. *)
Theorem reference_scenario
    (review : AdmissionReview) (pod : Pod) (container : Container) :
  json_Unmarshal (Object_Raw (Request review)) = inl pod ->
  Namespace (Request review) = "tool-test" ->
  Labels pod !! MountConfigLabel = None ->
  elems (Volumes pod) = [] ->
  Containers pod = [container] ->
  Env container = None ->
  elems (VolumeMounts container) = [] ->
  (forall m, NodeSelector pod = Some m -> m !! nfsMountedKey = None ->
     patches (HandleAdmission_run referenceAdmission review)
     = referencePatchHead ++ [opNfsMounted]
     /\ length (patches (HandleAdmission_run referenceAdmission review)) = 10)
  /\ (NodeSelector pod = None ->
      patches (HandleAdmission_run referenceAdmission review)
      = referencePatchHead ++ [opInitNodeSelector; opNfsMounted]
      /\ length (patches (HandleAdmission_run referenceAdmission review)) = 11)
  /\ (forall bytes,
        json_Marshal (patches (HandleAdmission_run referenceAdmission review)) = inl bytes ->
        Response (HandleAdmission referenceAdmission review)
        = Some (patchResponse (req_UID (Request review)) "Volumes mounted" (Some bytes))).
Proof.
  intros Hpod Hns Hlabel Hvols Hcs Henv Hvm.
  assert (Hall : getLabelOrDefault pod MountConfigLabel MountAll = MountAll).
  { unfold getLabelOrDefault. now rewrite Hlabel. }
  assert (Hpre : HasPrefix (Namespace (Request review)) "tool-" = true).
  { rewrite Hns. reflexivity. }
  assert (Honly : onlyHomeHostPaths (elems (Volumes pod))).
  { rewrite Hvols. intros v hp []. }
  pose proof (run_validated referenceAdmission review pod Hpod (or_introl Hall) Hpre Honly)
    as Hrun.
  rewrite Hall in Hrun. change (String.eqb MountAll MountNone) with false in Hrun.
  cbv zeta in Hrun.
  assert (Hhead :
    volumesInit pod ++ mountAllPatches referenceAdmission (Namespace (Request review)) pod
    = referencePatchHead ++ nodeSelectorPatches pod).
  { unfold volumesInit, mountAllPatches, referenceAdmission, referenceVolumes.
    cbn [Volumes_ flat_map]. unfold volumePatches, hasVolumeByName.
    rewrite Hvols, Hcs, Hns. cbn [length Nat.eqb existsb rangeFrom].
    unfold volumeMountsInit, mountPatch, hasMountByPath, envPatches, hasEnvVarSet.
    rewrite Hvm, Henv. reflexivity. }
  rewrite Hhead in Hrun.
  assert (Hpatches : patches (HandleAdmission_run referenceAdmission review)
                     = referencePatchHead ++ nodeSelectorPatches pod).
  { rewrite Hrun. now destruct (json_Marshal _). }
  split; [|split].
  - intros m Hm Hkey. rewrite Hpatches. unfold nodeSelectorPatches.
    rewrite Hm, Hkey. split; reflexivity.
  - intros Hm. rewrite Hpatches. unfold nodeSelectorPatches.
    rewrite Hm, lookup_empty. split; reflexivity.
  - intros bytes. rewrite Hpatches. unfold HandleAdmission. rewrite Hrun.
    now intros ->.
Qed.

Lemma affectsEnv_containerPath (i j : nat) (f op : string) (v : PatchValue) :
  isField f ->
  affectsEnv i {| Op := op; Path := containerPath j f; Value := v |} = true ->
  j = i /\ (String.prefix f "/env" || String.prefix "/env" f = true).
Proof.
  intros Hf H. unfold affectsEnv in H. cbn [Path] in H.
  assert (He : isField "/env") by (now eexists).
  apply orb_true_iff in H as [H|H];
    apply containerPath_prefix in H as [-> H]; auto;
    rewrite H; auto using orb_true_r.
Qed.

Lemma hasEnvVarSet_Env (c : Container) (name : string) :
  hasEnvVarSet c name = true -> Env c <> None.
Proof.
  unfold hasEnvVarSet. destruct (Env c); [discriminate | discriminate].
Qed.

(** C4: on the full path, for a container that defines [HOME] the only
    operation whose path is at, above or below its [env] array is the
    append of [TOOL_DATA_DIR], so that nothing adds, removes or replaces
    [HOME]; for a container that defines [NO_HOME] no operation appends
    [HOME], and its [workingDir] is removed when it is not empty. *)
Theorem home_precedence
    (admission : VolumeAdmission) (review : AdmissionReview) (pod : Pod)
    (i : nat) (container : Container) :
  json_Unmarshal (Object_Raw (Request review)) = inl pod ->
  getLabelOrDefault pod MountConfigLabel MountAll = MountAll ->
  Allowed (response (HandleAdmission_run admission review)) = true ->
  Containers pod !! i = Some container ->
  (hasEnvVarSet container "HOME" = true ->
     forall p, In p (patches (HandleAdmission_run admission review)) ->
       affectsEnv i p = true ->
       Op p = "add" /\ Path p = containerPath i "/env/-"
       /\ exists value, Value p = EnvVarValue {| Env_Name := "TOOL_DATA_DIR"; Env_Value := value |})
  /\ (hasEnvVarSet container "NO_HOME" = true ->
      (forall p, In p (patches (HandleAdmission_run admission review)) ->
         addsEnv i "HOME" p = false)
      /\ (WorkingDir container <> "" ->
          In (opRemoveWorkingDir i) (patches (HandleAdmission_run admission review)))).
Proof.
  intros Hpod Hlabel Hallowed Hi.
  destruct (run_all_allowed admission review pod Hpod Hlabel Hallowed)
    as (_ & _ & Hpatches & _).
  rewrite Hpatches. split; [|split].
  - intros Hhome p Hp Haff.
    apply in_all_patches in Hp
      as [->|[(k & ->)|[(v & ->)|[(k & v & ->)|[(k & c & Hk & Hp)|[->| ->]]]]]];
      try discriminate Haff.
    + apply affectsEnv_containerPath in Haff as [_ Haff]; [discriminate Haff | now eexists].
    + apply affectsEnv_containerPath in Haff as [_ Haff]; [discriminate Haff | now eexists].
    + pose proof (hasEnvVarSet_Env _ _ Hhome) as Henv.
      unfold envPatches in Hp. cbv zeta in Hp.
      destruct (Env c) as [es|] eqn:Hes.
      * cbn [app] in Hp. rewrite !in_app_iff in Hp.
        destruct Hp as [Hp|[Hp|Hp]].
        -- destruct (hasEnvVarSet c "NO_HOME"); [|destruct Hp].
           destruct (negb _); [|destruct Hp]. destruct Hp as [<-|[]].
           apply affectsEnv_containerPath in Haff as [_ Haff];
             [discriminate Haff | now eexists].
        -- assert (k = i) as ->.
           { destruct (hasEnvVarSet c "NO_HOME"), (hasEnvVarSet c "HOME");
               cbn in Hp; try tauto; destruct Hp as [<-|[]];
               apply affectsEnv_containerPath in Haff as [-> _]; auto; now eexists. }
           rewrite Hi in Hk. injection Hk as <-. rewrite Hhome in Hp.
           destruct (hasEnvVarSet container "NO_HOME"); destruct Hp.
        -- destruct Hp as [<-|[]].
           apply affectsEnv_containerPath in Haff as [-> _]; [|now eexists].
           cbn. eauto.
      * assert (k = i) as ->.
        { rewrite !in_app_iff in Hp.
          destruct Hp as [[<-|[]]|[Hp|[Hp|[<-|[]]]]];
            try (apply affectsEnv_containerPath in Haff as [-> _]; auto; now eexists).
          - destruct (hasEnvVarSet c "NO_HOME"); [|destruct Hp].
            destruct (negb _); [|destruct Hp]. destruct Hp as [<-|[]].
            apply affectsEnv_containerPath in Haff as [-> _]; auto; now eexists.
          - destruct (if hasEnvVarSet c "NO_HOME" then true else hasEnvVarSet c "HOME");
              cbn in Hp; [destruct Hp|]. destruct Hp as [<-|[]].
            apply affectsEnv_containerPath in Haff as [-> _]; auto; now eexists. }
        rewrite Hi in Hk. injection Hk as <-. congruence.
  - intros p Hp. destruct (addsEnv i "HOME" p) eqn:Hadds; [exfalso|reflexivity].
    apply in_all_patches in Hp
      as [->|[(k & ->)|[(v & ->)|[(k & v & ->)|[(k & c & Hk & Hp)|[->| ->]]]]]];
      try discriminate Hadds.
    assert (Hf : In p (List.filter (addsEnv i "HOME") (envPatches (Namespace (Request review)) k c))).
    { apply filter_In. auto. }
    rewrite filter_addsEnv_envPatches in Hf.
    destruct (Nat.eqb_spec k i) as [->|]; [|destruct Hf].
    rewrite Hi in Hk. injection Hk as <-.
    unfold envPatches in Hf. cbv zeta in Hf. rewrite H in Hf.
    destruct (Env container); destruct (negb (String.eqb (WorkingDir container) ""));
      cbn in Hf; tauto.
  - intros Hwd. unfold mountAllPatches. rewrite !in_app_iff.
    right. right. right. left. apply in_rangeFrom. exists i, container.
    split; [exact Hi|]. cbn [Nat.add]. unfold envPatches. cbv zeta.
    rewrite H. apply String.eqb_neq in Hwd. rewrite Hwd. cbn [negb].
    rewrite !in_app_iff. right. left. now left.
Qed.

(** *** Order of the operations *)

Lemma string_length_app (a b : string) :
  String.length (a +:+ b) = String.length a + String.length b.
Proof. induction a as [|c a IH]; simpl; auto. Qed.

Lemma string_drop_app (a b : string) (n : nat) :
  string_drop (String.length a + n) (a +:+ b) = string_drop n b.
Proof. induction a as [|c a IH]; simpl; auto. Qed.

Lemma HasSuffix_app (a b suf : string) :
  String.length suf <= String.length b ->
  HasSuffix (a +:+ b) suf = HasSuffix b suf.
Proof.
  intros Hlen. unfold HasSuffix. rewrite string_length_app.
  replace (String.length a + String.length b - String.length suf)
    with (String.length a + (String.length b - String.length suf)) by lia.
  rewrite string_drop_app. f_equal.
  destruct (Nat.leb_spec (String.length suf) (String.length a + String.length b)),
    (Nat.leb_spec (String.length suf) (String.length b)); auto; lia.
Qed.

Lemma HasSuffix_containerPath (i : nat) (f suf : string) :
  String.length suf <= String.length f ->
  HasSuffix (containerPath i f) suf = HasSuffix f suf.
Proof.
  intros Hlen. unfold containerPath.
  rewrite HasSuffix_app by (rewrite string_length_app; lia).
  now apply HasSuffix_app.
Qed.

Lemma lookup_In {A : Type} (l : list A) (k : nat) (x : A) : l !! k = Some x -> In x l.
Proof. intros H. apply list_elem_of_In. eapply list_elem_of_lookup_2, H. Qed.

Lemma createdBefore_app_l (l1 l2 : list PatchOperation) (k : nat) (parent : string) :
  createdBefore l1 k parent -> createdBefore (l1 ++ l2) k parent.
Proof.
  intros (j & q & Hj & Hq & Hc). exists j, q.
  split; [exact Hj|]. split; [now apply lookup_app_l_Some | exact Hc].
Qed.

Lemma createdBefore_app_r (l1 l2 : list PatchOperation) (k : nat) (parent : string) :
  createdBefore l2 k parent -> createdBefore (l1 ++ l2) (length l1 + k) parent.
Proof.
  intros (j & q & Hj & Hq & Hc). exists (length l1 + j), q.
  split; [lia|]. split; [|exact Hc].
  rewrite lookup_app_r by lia.
  now replace (length l1 + j - length l1) with j by lia.
Qed.

Lemma createdBefore_In (l1 l2 : list PatchOperation) (k : nat) (parent : string) (q : PatchOperation) :
  In q l1 -> createsArray parent q -> length l1 <= k ->
  createdBefore (l1 ++ l2) k parent.
Proof.
  intros Hq Hc Hk. apply list_elem_of_In, list_elem_of_lookup_1 in Hq as [j Hj].
  exists j, q. pose proof (lookup_lt_Some _ _ _ Hj).
  split; [lia|]. split; [now apply lookup_app_l_Some | exact Hc].
Qed.

Lemma createdBefore_mono (l : list PatchOperation) (k k' : nat) (parent : string) :
  createdBefore l k parent -> k <= k' -> createdBefore l k' parent.
Proof. intros (j & q & Hj & H) Hk. exists j, q. split; [lia | exact H]. Qed.

(** Inside the block of one container the appends to [env] come after the
    initialisation of [env]. *)
Lemma envPatches_order (namespace : string) (i k : nat) (c : Container) (p : PatchOperation) :
  envPatches namespace i c !! k = Some p ->
  HasSuffix (Path p) "/-" = true ->
  Path p = containerPath i "/env/-"
  /\ (Env c <> None \/ createdBefore (envPatches namespace i c) k (containerPath i "/env")).
Proof.
  intros Hk Hsuf. unfold envPatches in *. cbv zeta in *.
  assert (Hnot_init : HasSuffix (Path (opInitEnv i)) "/-" = false).
  { cbn [Path opInitEnv]. now rewrite HasSuffix_containerPath by (cbn; lia). }
  assert (Hnot_remove : HasSuffix (Path (opRemoveWorkingDir i)) "/-" = false).
  { cbn [Path opRemoveWorkingDir]. now rewrite HasSuffix_containerPath by (cbn; lia). }
  split.
  - apply lookup_In in Hk. rewrite !in_app_iff in Hk.
    destruct Hk as [Hk|[Hk|[Hk|[<-|[]]]]]; [| | |reflexivity].
    + destruct (Env c); [destruct Hk|]. destruct Hk as [<-|[]]. congruence.
    + destruct (hasEnvVarSet c "NO_HOME"); [|destruct Hk].
      destruct (negb _); [|destruct Hk]. destruct Hk as [<-|[]]. congruence.
    + destruct (negb _); [|destruct Hk]. destruct Hk as [<-|[]]. reflexivity.
  - destruct (Env c) as [es|] eqn:Henv; [left; discriminate|]. right.
    destruct k as [|k].
    + cbn in Hk. injection Hk as <-. congruence.
    + exists 0, (opInitEnv i). split; [lia|]. split; [reflexivity|].
      unfold createsArray. cbn. auto.
Qed.

Lemma rangeFrom_env_order (namespace : string) (s k : nat) (l : list Container) (p : PatchOperation) :
  rangeFrom (envPatches namespace) s l !! k = Some p ->
  HasSuffix (Path p) "/-" = true ->
  exists j c, l !! j = Some c
    /\ Path p = containerPath (s + j) "/env/-"
    /\ (Env c <> None
        \/ createdBefore (rangeFrom (envPatches namespace) s l) k (containerPath (s + j) "/env")).
Proof.
  revert s k. induction l as [|c l IH]; intros s k Hk Hsuf; [discriminate|].
  cbn [rangeFrom] in *. apply lookup_app_Some in Hk as [Hk|[Hlen Hk]].
  - destruct (envPatches_order _ _ _ _ _ Hk Hsuf) as [Hpath Horder].
    exists 0, c. rewrite Nat.add_0_r. split; [reflexivity|]. split; [exact Hpath|].
    destruct Horder as [?|Horder]; [now left | right].
    now apply createdBefore_app_l.
  - destruct (IH _ _ Hk Hsuf) as (j & c' & Hj & Hpath & Horder).
    exists (S j), c'. rewrite Nat.add_succ_r. split; [exact Hj|]. split; [exact Hpath|].
    destruct Horder as [?|Horder]; [now left | right].
    apply (createdBefore_app_r (envPatches namespace s c)) in Horder.
    now replace (length (envPatches namespace s c) + (k - length (envPatches namespace s c)))
      with k in Horder by lia.
Qed.

Lemma elems_nonempty {A : Type} (s : option (list A)) : elems s <> [] -> s <> None.
Proof. now destruct s. Qed.

(** C7: in the patch list of an allowed request, every [add] whose path
    ends in [/-] appends to an array that is present on the Pod or that an
    earlier operation of the list creates. *)
Theorem append_after_array
    (admission : VolumeAdmission) (review : AdmissionReview) (pod : Pod)
    (k : nat) (p : PatchOperation) :
  json_Unmarshal (Object_Raw (Request review)) = inl pod ->
  Allowed (response (HandleAdmission_run admission review)) = true ->
  patches (HandleAdmission_run admission review) !! k = Some p ->
  Op p = "add" ->
  HasSuffix (Path p) "/-" = true ->
  exists parent,
    Path p = parent +:+ "/-"
    /\ (arrayExists pod parent
        \/ createdBefore (patches (HandleAdmission_run admission review)) k parent).
Proof.
  intros Hpod Hallowed Hk _ Hsuf.
  destruct (run_allowed_inv admission review pod Hpod Hallowed) as (Hl & Hns & Hvols).
  revert Hk. rewrite (run_validated_patches admission review pod Hpod Hl Hns Hvols).
  assert (Hinit : forall x, In x (volumesInit pod) ->
            x = opInitVolumes /\ elems (Volumes pod) = []).
  { unfold volumesInit. intros x Hx. destruct (elems (Volumes pod)); [|destruct Hx].
    destruct Hx as [<-|[]]. auto. }
  destruct Hl as [Hl|Hl]; rewrite Hl.
  2:{ change (String.eqb MountNone MountNone) with true. intros Hk.
      apply lookup_In, Hinit in Hk as [-> _]. discriminate Hsuf. }
  change (String.eqb MountAll MountNone) with false.
  set (ns := Namespace (Request review)).
  unfold mountAllPatches.
  set (V := volumesInit pod).
  set (M := rangeFrom volumeMountsInit 0 (Containers pod)).
  set (F := flat_map (volumePatches pod) (Volumes_ admission)).
  set (E := rangeFrom (envPatches ns) 0 (Containers pod)).
  set (N := nodeSelectorPatches pod).
  intros Hk.
  apply lookup_app_Some in Hk as [Hk|[HV Hk]].
  { apply lookup_In, Hinit in Hk as [-> _]. discriminate Hsuf. }
  apply lookup_app_Some in Hk as [Hk|[HM Hk]].
  { apply lookup_In, in_rangeFrom in Hk as (i & c & _ & Hk).
    unfold volumeMountsInit in Hk. destruct (Nat.eqb _ 0); [|destruct Hk].
    destruct Hk as [<-|[]]. cbn [Path opInitVolumeMounts] in Hsuf.
    rewrite HasSuffix_containerPath in Hsuf by (cbn; lia). discriminate Hsuf. }
  apply lookup_app_Some in Hk as [Hk|[HF Hk]].
  { apply lookup_In, in_flat_map in Hk as (v & _ & Hk).
    apply in_volumePatches in Hk as (_ & [->|(i & c & Hi & _ & ->)]).
    - exists "/spec/volumes". split; [reflexivity|].
      destruct (elems (Volumes pod)) as [|x xs] eqn:Hvs.
      + right. apply (createdBefore_In V _ k _ opInitVolumes); [|unfold createsArray; cbn; auto|lia].
        unfold V, volumesInit. rewrite Hvs. now left.
      + left. left. split; [reflexivity|]. apply elems_nonempty. congruence.
    - exists (containerPath i "/volumeMounts"). split.
      + exact (containerPath_app i "/volumeMounts" "/-").
      + destruct (elems (VolumeMounts c)) as [|x xs] eqn:Hms.
        * right. rewrite app_assoc.
          apply (createdBefore_In (V ++ M) _ k _ (opInitVolumeMounts i));
            [|unfold createsArray; cbn; auto|rewrite length_app; lia].
          apply in_app_iff. right. apply in_rangeFrom. exists i, c.
          split; [exact Hi|]. unfold volumeMountsInit. rewrite Hms. now left.
        * left. right. exists i, c. split; [exact Hi|]. left.
          split; [reflexivity|]. apply elems_nonempty. congruence. }
  apply lookup_app_Some in Hk as [Hk|[HE Hk]].
  { destruct (rangeFrom_env_order _ _ _ _ _ Hk Hsuf) as (i & c & Hi & Hpath & Horder).
    cbn [Nat.add] in *. exists (containerPath i "/env"). split.
    - rewrite Hpath. exact (containerPath_app i "/env" "/-").
    - destruct Horder as [Henv|Horder].
      + left. right. exists i, c. split; [exact Hi|]. right. auto.
      + right. apply (createdBefore_app_l _ N) in Horder.
        apply (createdBefore_app_r F) in Horder.
        apply (createdBefore_app_r M) in Horder.
        apply (createdBefore_app_r V) in Horder.
        eapply createdBefore_mono; [exact Horder | lia]. }
  apply lookup_In, in_nodeSelectorPatches in Hk as [-> | ->]; discriminate Hsuf.
Qed.

(** *** Applying the patch *)

Lemma applyPatch_app (l1 l2 : list PatchOperation) (pod : Pod) :
  applyPatch (l1 ++ l2) pod
  = match applyPatch l1 pod with
    | Some pod' => applyPatch l2 pod'
    | None => None
    end.
Proof.
  revert pod. induction l1 as [|p l1 IH]; intros pod; simpl; [reflexivity|].
  destruct (applyOp p pod); auto.
Qed.

Lemma setContainer_id (pod : Pod) (i : nat) (c : Container) :
  Containers pod !! i = Some c -> setContainer pod i c = pod.
Proof.
  intros H. destruct pod as [labels vols cs nsel]. unfold setContainer. cbn in *.
  now rewrite list_insert_id.
Qed.

Lemma setContainer_twice (pod : Pod) (i : nat) (c c' : Container) :
  setContainer (setContainer pod i c) i c' = setContainer pod i c'.
Proof. unfold setContainer. cbn. now rewrite list_insert_insert_eq. Qed.

(** Operations on one container change that container only. *)
Lemma applyPatch_applyAt (i : nat) (ps : list PatchOperation) (pod : Pod) (c c' : Container) :
  Containers pod !! i = Some c ->
  applyAt i ps c = Some c' ->
  applyPatch ps pod = Some (setContainer pod i c').
Proof.
  revert pod c. induction ps as [|p ps IH]; intros pod c Hi H; cbn [applyAt applyPatch] in *.
  - injection H as <-. now rewrite setContainer_id.
  - unfold applyOp.
    destruct (parseContainerPath (Path p)) as [[j field]|]; [|discriminate].
    destruct (Nat.eqb_spec j i) as [->|]; [|discriminate].
    rewrite Hi.
    destruct (applyContainerOp p field c) as [c1|]; [|discriminate].
    rewrite (IH (setContainer pod i c1) c1).
    + now rewrite setContainer_twice.
    + cbn. apply list_lookup_insert_eq. eapply lookup_lt_Some, Hi.
    + exact H.
Qed.

(** A loop over the containers whose body takes container [i] from [g c]
    to [h c]. *)
Lemma applyPatch_rangeFrom (body : nat -> Container -> list PatchOperation)
    (g h : Container -> Container) :
  (forall i c pod, Containers pod !! i = Some (g c) ->
     applyPatch (body i c) pod = Some (setContainer pod i (h c))) ->
  forall (rest done : list Container) (pod : Pod),
    Containers pod = done ++ map g rest ->
    applyPatch (rangeFrom body (length done) rest) pod
    = Some (withContainers pod (done ++ map h rest)).
Proof.
  intros Hbody. induction rest as [|c rest IH]; intros done pod Hcs; cbn [rangeFrom map].
  - cbn. f_equal. destruct pod. unfold withContainers. cbn in *. now rewrite Hcs.
  - rewrite applyPatch_app, (Hbody (length done) c pod).
    2:{ rewrite Hcs. cbn [map]. now apply list_lookup_middle. }
    replace (S (length done)) with (length (done ++ [h c]))
      by (rewrite length_app; cbn; lia).
    rewrite (IH (done ++ [h c])).
    + unfold withContainers, setContainer. cbn.
      now rewrite <- app_assoc.
    + unfold setContainer. cbn. rewrite Hcs. cbn [map].
      replace (length done) with (length done + 0) at 1 by lia.
      rewrite insert_app_r. cbn. now rewrite <- app_assoc.
Qed.

Ltac applyAt_step :=
  cbn [applyAt Path opInitVolumeMounts opAddMount opInitEnv opRemoveWorkingDir opAddEnv];
  rewrite parseContainerPath_containerPath by (now eexists);
  rewrite Nat.eqb_refl.

Lemma applyAt_volumeMountsInit (i : nat) (c : Container) :
  applyAt i (volumeMountsInit i c) c = Some (mountsAfter [] c).
Proof.
  unfold volumeMountsInit, mountsAfter. destruct c as [vm env wd]. cbn [VolumeMounts Env WorkingDir].
  destruct vm as [[|m ms]|]; cbn [elems length Nat.eqb List.filter map app].
  - applyAt_step. reflexivity.
  - cbn. now rewrite app_nil_r.
  - applyAt_step. reflexivity.
Qed.

Lemma applyAt_mountPatch (added : list Volume) (volume : Volume) (i : nat) (c : Container) :
  applyAt i (mountPatch volume i c) (mountsAfter added c)
  = Some (mountsAfter (added ++ [volume]) c).
Proof.
  unfold mountPatch, mountsAfter. rewrite List.filter_app. cbn [List.filter].
  destruct (hasMountByPath c (Path_ volume)); cbn [negb].
  - cbn. now rewrite app_nil_r.
  - applyAt_step. cbn. now rewrite map_app, app_assoc.
Qed.

Lemma applyAt_envPatches (namespace : string) (added : list Volume) (i : nat) (c : Container) :
  applyAt i (envPatches namespace i c) (mountsAfter added c)
  = Some (patchedContainer namespace added c).
Proof.
  unfold envPatches, patchedContainer, envAdded, mountsAfter. cbv zeta.
  destruct c as [vm env wd]. cbn [VolumeMounts Env WorkingDir].
  destruct env as [es|].
  - destruct (hasEnvVarSet _ "NO_HOME"), (hasEnvVarSet _ "HOME"),
      (String.eqb_spec wd "") as [->|Hwd];
      cbn [negb orb app]; repeat applyAt_step; cbn;
      try (apply String.eqb_neq in Hwd; rewrite Hwd);
      repeat applyAt_step; cbn; rewrite <- ?app_assoc; reflexivity.
  - replace (hasEnvVarSet {| VolumeMounts := vm; Env := None; WorkingDir := wd |} "NO_HOME")
      with false by reflexivity.
    replace (hasEnvVarSet {| VolumeMounts := vm; Env := None; WorkingDir := wd |} "HOME")
      with false by reflexivity.
    cbn [negb orb app]. repeat applyAt_step. cbn. repeat applyAt_step. reflexivity.
Qed.

Lemma applyPatch_volumesInit (pod : Pod) :
  applyPatch (volumesInit pod) pod
  = Some {| Labels := Labels pod; Volumes := Some (elems (Volumes pod));
            Containers := Containers pod; NodeSelector := NodeSelector pod |}.
Proof.
  unfold volumesInit. destruct pod as [labels [[|v vs]|] cs nsel]; reflexivity.
Qed.

Lemma applyOp_opAddVolume (volume : Volume) (pod : Pod) (vs : list corev1.Volume) :
  Volumes pod = Some vs ->
  applyOp (opAddVolume volume) pod
  = Some {| Labels := Labels pod; Volumes := Some (vs ++ [hostPathVolume volume]);
            Containers := Containers pod; NodeSelector := NodeSelector pod |}.
Proof.
  intros H. unfold applyOp.
  change (parseContainerPath (Path (opAddVolume volume))) with (@None (nat * string)).
  cbn. now rewrite H.
Qed.

Lemma applyPatch_volumePatches (pod : Pod) (labels : gmap string string)
    (nsel : option (gmap string string)) (vs : list corev1.Volume)
    (volumes added : list Volume) :
  applyPatch (flat_map (volumePatches pod) volumes)
    {| Labels := labels; Volumes := Some (vs ++ map hostPathVolume added);
       Containers := map (mountsAfter added) (Containers pod); NodeSelector := nsel |}
  = Some
    {| Labels := labels;
       Volumes := Some (vs ++ map hostPathVolume
                     (added ++ List.filter (fun volume => negb (hasVolumeByName pod (Name volume)))
                                 volumes));
       Containers :=
         map (mountsAfter
                (added ++ List.filter (fun volume => negb (hasVolumeByName pod (Name volume)))
                            volumes))
             (Containers pod);
       NodeSelector := nsel |}.
Proof.
  revert added. induction volumes as [|volume volumes IH]; intros added;
    cbn [flat_map List.filter].
  - now rewrite app_nil_r.
  - rewrite applyPatch_app. unfold volumePatches at 1.
    destruct (hasVolumeByName pod (Name volume)); cbn [negb].
    + cbn [applyPatch]. apply IH.
    + cbn [applyPatch]. erewrite applyOp_opAddVolume by reflexivity. cbn [Labels Containers NodeSelector].
      pose proof (applyPatch_rangeFrom (mountPatch volume)
                    (mountsAfter added) (mountsAfter (added ++ [volume]))) as Hloop.
      rewrite (Hloop (fun i c pod0 Hi =>
                        applyPatch_applyAt i _ pod0 _ _ Hi (applyAt_mountPatch added volume i c))
                 (Containers pod) []) by reflexivity.
      unfold withContainers. cbn [app Labels Volumes NodeSelector].
      replace ((vs ++ map hostPathVolume added) ++ [hostPathVolume volume])
        with (vs ++ map hostPathVolume (added ++ [volume]))
        by (now rewrite map_app, app_assoc).
      replace (added ++ volume :: List.filter (fun volume0 => negb (hasVolumeByName pod (Name volume0))) volumes)
        with ((added ++ [volume]) ++ List.filter (fun volume0 => negb (hasVolumeByName pod (Name volume0))) volumes)
        by (now rewrite <- app_assoc).
      apply IH.
Qed.

Lemma applyPatch_nodeSelectorPatches (pod : Pod) (vols : option (list corev1.Volume))
    (cs : list Container) :
  applyPatch (nodeSelectorPatches pod)
    {| Labels := Labels pod; Volumes := vols; Containers := cs; NodeSelector := NodeSelector pod |}
  = Some {| Labels := Labels pod; Volumes := vols; Containers := cs;
            NodeSelector := Some (patchedNodeSelector pod) |}.
Proof.
  unfold nodeSelectorPatches, patchedNodeSelector.
  destruct (NodeSelector pod) as [m|]; cbv zeta.
  - destruct (m !! nfsMountedKey) eqn:Hkey; reflexivity.
  - rewrite lookup_empty. reflexivity.
Qed.

(** The patch of the full path applies, and gives [patchedPod]. *)
Lemma applyPatch_all (admission : VolumeAdmission) (namespace : string) (pod : Pod) :
  applyPatch (volumesInit pod ++ mountAllPatches admission namespace pod) pod
  = Some (patchedPod admission namespace pod).
Proof.
  unfold mountAllPatches. rewrite applyPatch_app, applyPatch_volumesInit.
  rewrite applyPatch_app.
  pose proof (applyPatch_rangeFrom volumeMountsInit (fun c => c) (mountsAfter [])) as Hinit.
  rewrite (Hinit (fun i c pod0 Hi =>
                    applyPatch_applyAt i _ pod0 _ _ Hi (applyAt_volumeMountsInit i c))
             (Containers pod) [])
    by (cbn; now rewrite map_id).
  unfold withContainers. cbn [app Labels Volumes NodeSelector].
  rewrite applyPatch_app.
  pose proof (applyPatch_volumePatches pod (Labels pod) (NodeSelector pod)
                (elems (Volumes pod)) (Volumes_ admission) []) as Hvols.
  cbn [map app] in Hvols. rewrite app_nil_r in Hvols. rewrite Hvols. clear Hvols.
  fold (addedVolumes admission pod).
  rewrite applyPatch_app.
  pose proof (applyPatch_rangeFrom (envPatches namespace)
                (mountsAfter (addedVolumes admission pod))
                (patchedContainer namespace (addedVolumes admission pod))) as Henv.
  rewrite (Henv (fun i c pod0 Hi =>
                   applyPatch_applyAt i _ pod0 _ _ Hi
                     (applyAt_envPatches namespace (addedVolumes admission pod) i c))
             (Containers pod) []) by reflexivity.
  unfold withContainers. cbn [app Labels Volumes NodeSelector].
  apply applyPatch_nodeSelectorPatches.
Qed.

(** *** The second run *)

Lemma hasEnvVarSet_patchedContainer (namespace name : string) (added : list Volume) (c : Container) :
  hasEnvVarSet (patchedContainer namespace added c) name
  = hasEnvVarSet c name
    || existsb (fun env => String.eqb (Env_Name env) name) (envAdded namespace c).
Proof. unfold hasEnvVarSet, patchedContainer. cbn [Env elems]. apply existsb_app. Qed.

(** After the patch a container only gets [TOOL_DATA_DIR] again. *)
Lemma envPatches_patchedContainer (namespace : string) (added : list Volume) (i : nat) (c : Container) :
  envPatches namespace i (patchedContainer namespace added c)
  = [opAddEnv i "TOOL_DATA_DIR" ("/data/project/" +:+ Replace1 namespace "tool-" "")].
Proof.
  unfold envPatches. cbv zeta. rewrite !hasEnvVarSet_patchedContainer.
  unfold envAdded. cbv zeta. cbn [Env WorkingDir patchedContainer].
  destruct (hasEnvVarSet c "HOME"), (hasEnvVarSet c "NO_HOME"); reflexivity.
Qed.

Lemma hasVolumeByName_patchedPod (admission : VolumeAdmission) (namespace : string) (pod : Pod)
    (volume : Volume) :
  In volume (Volumes_ admission) ->
  hasVolumeByName (patchedPod admission namespace pod) (Name volume) = true.
Proof.
  intros Hin. unfold hasVolumeByName at 1. cbn [patchedPod Volumes elems].
  rewrite existsb_app. fold (hasVolumeByName pod (Name volume)).
  destruct (hasVolumeByName pod (Name volume)) eqn:Hhas; [reflexivity|].
  cbn [orb]. apply existsb_exists. exists (hostPathVolume volume). split.
  - apply in_map, filter_In. split; [exact Hin|]. now rewrite Hhas.
  - apply String.eqb_refl.
Qed.

Lemma flat_map_nil {A B : Type} (f : A -> list B) (l : list A) :
  (forall x, In x l -> f x = []) -> flat_map f l = [].
Proof.
  induction l as [|x l IH]; intros H; cbn; [reflexivity|].
  rewrite (H x) by (now left). apply IH. intros y Hy. apply H. now right.
Qed.

Lemma nodeSelectorPatches_patchedPod (admission : VolumeAdmission) (namespace : string) (pod : Pod) :
  nodeSelectorPatches (patchedPod admission namespace pod) = [].
Proof.
  unfold nodeSelectorPatches. cbn [patchedPod NodeSelector]. unfold patchedNodeSelector. cbv zeta.
  destruct (match NodeSelector pod with Some m => m | None => ∅ end !! nfsMountedKey) eqn:Hkey.
  - now rewrite Hkey.
  - now rewrite lookup_insert_eq.
Qed.

Lemma onlyHomeHostPaths_patchedPod (admission : VolumeAdmission) (namespace : string) (pod : Pod) :
  onlyHomeHostPaths (elems (Volumes pod)) ->
  (onlyHomeHostPaths (elems (Volumes (patchedPod admission namespace pod)))
   <-> forallb isHomeVolume (addedVolumes admission pod) = true).
Proof.
  intros Honly. cbn [patchedPod Volumes elems]. unfold onlyHomeHostPaths.
  rewrite forallb_forall. split.
  - intros H volume Hin. unfold isHomeVolume.
    destruct (H (hostPathVolume volume) {| hp_Path := Path_ volume; hp_Type := Some (Type_ volume) |})
      as [Hn Hp]; [apply in_app_iff; right; now apply in_map | reflexivity |].
    cbn in Hn, Hp. now rewrite Hn, Hp.
  - intros H v hp Hin Hhp. apply in_app_iff in Hin as [Hin|Hin]; [eauto|].
    apply in_map_iff in Hin as (volume & <- & Hin).
    apply H in Hin. unfold isHomeVolume in Hin.
    apply andb_true_iff in Hin as [Hn Hp].
    apply String.eqb_eq in Hn, Hp. cbn in Hhp. injection Hhp as <-. auto.
Qed.

(** C2 (amended): the patch of an allowed request on the full path
    applies to the Pod and gives [patchedPod].  A second run on that Pod,
    with the same policy and namespace, is denied when the first run added
    a volume of the policy other than [home] at [/data/project], since
    every added volume is a hostPath volume.  Otherwise its patch list
    holds, besides the initialisation of a volumes or volumeMounts array
    that is still empty, one [TOOL_DATA_DIR] append for each container and
    nothing else: no volume, no mount and no [HOME] is added again, and
    [TOOL_DATA_DIR] is. *)
Theorem rerun_on_patched_pod
    (admission : VolumeAdmission) (review review' : AdmissionReview) (pod : Pod) :
  json_Unmarshal (Object_Raw (Request review)) = inl pod ->
  getLabelOrDefault pod MountConfigLabel MountAll = MountAll ->
  Allowed (response (HandleAdmission_run admission review)) = true ->
  applyPatch (patches (HandleAdmission_run admission review)) pod
  = Some (patchedPod admission (Namespace (Request review)) pod)
  /\ (json_Unmarshal (Object_Raw (Request review'))
      = inl (patchedPod admission (Namespace (Request review)) pod) ->
      Namespace (Request review') = Namespace (Request review) ->
      (forallb isHomeVolume (addedVolumes admission pod) = false ->
         Allowed (response (HandleAdmission_run admission review')) = false)
      /\ (forallb isHomeVolume (addedVolumes admission pod) = true ->
          patches (HandleAdmission_run admission review')
          = volumesInit (patchedPod admission (Namespace (Request review)) pod)
            ++ rangeFrom volumeMountsInit 0
                 (Containers (patchedPod admission (Namespace (Request review)) pod))
            ++ rangeFrom
                 (fun i _ =>
                    [opAddEnv i "TOOL_DATA_DIR"
                       ("/data/project/" +:+ string_drop 5 (Namespace (Request review)))])
                 0 (Containers (patchedPod admission (Namespace (Request review)) pod)))).
Proof.
  intros Hpod Hlabel Hallowed.
  destruct (run_all_allowed admission review pod Hpod Hlabel Hallowed)
    as (Hns & Honly & Hpatches & _).
  split; [rewrite Hpatches; apply applyPatch_all|].
  set (pod' := patchedPod admission (Namespace (Request review)) pod).
  intros Hpod' Hns'. split.
  - intros Hforeign. apply Allowed_not_true. intros Hallowed'.
    destruct (run_allowed_inv admission review' pod' Hpod' Hallowed') as (_ & _ & Honly').
    apply (onlyHomeHostPaths_patchedPod admission _ pod Honly) in Honly'. congruence.
  - intros Hhome.
    apply (onlyHomeHostPaths_patchedPod admission (Namespace (Request review)) pod Honly) in Hhome.
    assert (Hlabel' : getLabelOrDefault pod' MountConfigLabel MountAll = MountAll) by exact Hlabel.
    rewrite (run_validated_patches admission review' pod' Hpod' (or_introl Hlabel')).
    2:{ now rewrite Hns'. }
    2:{ exact Hhome. }
    rewrite Hlabel'. change (String.eqb MountAll MountNone) with false.
    rewrite Hns'. unfold mountAllPatches. subst pod'. f_equal. f_equal.
    rewrite flat_map_nil.
    2:{ intros volume Hin. unfold volumePatches.
        now rewrite hasVolumeByName_patchedPod. }
    rewrite nodeSelectorPatches_patchedPod, app_nil_r. cbn [app].
    apply rangeFrom_ext. intros j c' Hj. apply lookup_In in Hj.
    cbn [patchedPod Containers] in Hj.
    apply in_map_iff in Hj as (c & <- & _).
    rewrite envPatches_patchedContainer, Replace1_prefix by exact Hns.
    reflexivity.
Qed.

(** ** Further properties of [HandleAdmission] *)

(** *** The denials *)

(** X1: when the raw object does not decode, the response carries the
    request UID and the text of the decode error and nothing else; the
    request part of the review is left as it was. *)
Theorem decode_error_response
    (admission : VolumeAdmission) (review : AdmissionReview) (err : string) :
  json_Unmarshal (Object_Raw (Request review)) = inr err ->
  HandleAdmission admission review
  = {| Request := Request review;
       Response := Some {| UID := req_UID (Request review); Allowed := false;
                           Result := Some {| Message := err |};
                           Patch := None; PatchType_ := None |} |}.
Proof.
  intros Herr. unfold HandleAdmission, HandleAdmission_run. cbv zeta.
  now rewrite Herr.
Qed.

(** X2: a mount-mode label that is present with a value other than [all]
    and [none] is answered with the invalid-label denial, whatever the
    namespace and the volumes of the Pod are: the label is checked first. *)
Theorem invalid_label_denied
    (admission : VolumeAdmission) (review : AdmissionReview) (pod : Pod) (value : string) :
  json_Unmarshal (Object_Raw (Request review)) = inl pod ->
  Labels pod !! MountConfigLabel = Some value ->
  value <> "all" -> value <> "none" ->
  Response (HandleAdmission admission review)
  = Some {| UID := req_UID (Request review); Allowed := false;
            Result := Some {| Message := "Invalid value for toolforge.org/mount-storage label" |};
            Patch := None; PatchType_ := None |}.
Proof.
  intros Hpod Hlabel Hall Hnone. unfold HandleAdmission, HandleAdmission_run. cbv zeta.
  rewrite Hpod. unfold getLabelOrDefault. rewrite Hlabel.
  apply String.eqb_neq in Hall, Hnone. unfold MountAll, MountNone.
  now rewrite Hall, Hnone.
Qed.

(** X3: with a valid mount-mode label, a namespace without the [tool-]
    prefix is answered with the namespace denial before the volumes of
    the Pod are looked at. *)
Theorem non_tool_namespace_message
    (admission : VolumeAdmission) (review : AdmissionReview) (pod : Pod) :
  json_Unmarshal (Object_Raw (Request review)) = inl pod ->
  getLabelOrDefault pod MountConfigLabel MountAll = MountAll
    \/ getLabelOrDefault pod MountConfigLabel MountAll = MountNone ->
  HasPrefix (Namespace (Request review)) "tool-" = false ->
  Response (HandleAdmission admission review)
  = Some {| UID := req_UID (Request review); Allowed := false;
            Result := Some {| Message := "Only tools can have tool volumes mounted to them" |};
            Patch := None; PatchType_ := None |}.
Proof.
  intros Hpod Hlabel Hns. unfold HandleAdmission, HandleAdmission_run. cbv zeta.
  rewrite Hpod, Hns.
  now destruct Hlabel as [-> | ->].
Qed.

Lemma findForeignHostPath_first (idx : nat) (before after : list corev1.Volume)
    (volume : corev1.Volume) (hostPath : HostPathVolumeSource) :
  onlyHomeHostPaths before ->
  Volume_HostPath volume = Some hostPath ->
  (Volume_Name volume, hp_Path hostPath) <> ("home", "/data/project") ->
  findForeignHostPath idx (before ++ volume :: after)
  = Some ("No hostPath volumes allowed, got one under /spec/volumes/"
          +:+ itoa (idx + length before) +:+ " Name:" +:+ Volume_Name volume
          +:+ " HostPath:" +:+ HostPath_String hostPath).
Proof.
  intros Hbefore Hhp Hne. revert idx.
  induction before as [|v before IH]; intros idx; cbn [app findForeignHostPath length].
  - rewrite Hhp, Nat.add_0_r.
    destruct (String.eqb_spec (Volume_Name volume) "home") as [Hn|Hn];
      destruct (String.eqb_spec (hp_Path hostPath) "/data/project") as [Hp|Hp];
      cbn [negb orb]; try reflexivity.
    exfalso. apply Hne. now rewrite Hn, Hp.
  - assert (Hrest : onlyHomeHostPaths before).
    { intros w hp Hw. apply Hbefore. now right. }
    rewrite Nat.add_succ_r, <- Nat.add_succ_l.
    destruct (Volume_HostPath v) as [hp|] eqn:Hv; [|now apply IH].
    destruct (Hbefore v hp (or_introl eq_refl) Hv) as [-> ->].
    cbn. now apply IH.
Qed.

(** X4: the hostPath denial names the first volume that is refused: its
    index in [/spec/volumes], its name and its hostPath.  Home volumes in
    front of it are passed over. *)
Theorem first_foreign_hostPath_reported
    (admission : VolumeAdmission) (review : AdmissionReview) (pod : Pod)
    (before after : list corev1.Volume) (volume : corev1.Volume)
    (hostPath : HostPathVolumeSource) :
  json_Unmarshal (Object_Raw (Request review)) = inl pod ->
  getLabelOrDefault pod MountConfigLabel MountAll = MountAll
    \/ getLabelOrDefault pod MountConfigLabel MountAll = MountNone ->
  HasPrefix (Namespace (Request review)) "tool-" = true ->
  elems (Volumes pod) = before ++ volume :: after ->
  onlyHomeHostPaths before ->
  Volume_HostPath volume = Some hostPath ->
  (Volume_Name volume, hp_Path hostPath) <> ("home", "/data/project") ->
  Response (HandleAdmission admission review)
  = Some {| UID := req_UID (Request review); Allowed := false;
            Result := Some {| Message :=
              "No hostPath volumes allowed, got one under /spec/volumes/"
              +:+ itoa (length before) +:+ " Name:" +:+ Volume_Name volume
              +:+ " HostPath:" +:+ HostPath_String hostPath |};
            Patch := None; PatchType_ := None |}.
Proof.
  intros Hpod Hlabel Hns Hvols Hbefore Hhp Hne.
  unfold HandleAdmission, HandleAdmission_run. cbv zeta.
  rewrite Hpod, Hns, Hvols.
  rewrite (findForeignHostPath_first 0 before after volume hostPath Hbefore Hhp Hne).
  replace (Nat.eqb (length (before ++ volume :: after)) 0) with false
    by (rewrite length_app; cbn; symmetry; apply Nat.eqb_neq; lia).
  now destruct Hlabel as [-> | ->].
Qed.

(** *** The decision *)

(** X5: a request whose Pod decodes is allowed exactly when the
    mount-mode label resolves to [all] or [none], the namespace starts
    with [tool-], every hostPath volume of the Pod is the home volume,
    and, unless the label is [none], the patch list serialises. *)
Theorem allowed_iff
    (admission : VolumeAdmission) (review : AdmissionReview) (pod : Pod) :
  json_Unmarshal (Object_Raw (Request review)) = inl pod ->
  (Allowed (response (HandleAdmission_run admission review)) = true
   <-> (getLabelOrDefault pod MountConfigLabel MountAll = MountAll
        \/ getLabelOrDefault pod MountConfigLabel MountAll = MountNone)
       /\ HasPrefix (Namespace (Request review)) "tool-" = true
       /\ onlyHomeHostPaths (elems (Volumes pod))
       /\ (getLabelOrDefault pod MountConfigLabel MountAll = MountNone
           \/ exists bytes,
                json_Marshal (volumesInit pod
                              ++ mountAllPatches admission (Namespace (Request review)) pod)
                = inl bytes)).
Proof.
  intros Hpod. split.
  - intros Hallowed.
    destruct (run_allowed_inv admission review pod Hpod Hallowed) as (Hl & Hns & Hvols).
    repeat (split; [assumption|]).
    destruct Hl as [Hl|Hl]; [right | now left].
    destruct (run_all_allowed admission review pod Hpod Hl Hallowed)
      as (_ & _ & Hpatches & bytes & Hm & _).
    exists bytes. now rewrite <- Hpatches.
  - intros (Hl & Hns & Hvols & Hm).
    rewrite (run_validated admission review pod Hpod Hl Hns Hvols).
    destruct (String.eqb_spec (getLabelOrDefault pod MountConfigLabel MountAll) MountNone)
      as [Hnone|Hnone]; [reflexivity|].
    destruct Hm as [Hm|(bytes & Hm)]; [contradiction|].
    cbv zeta. now rewrite Hm.
Qed.

(** X6: every response carries the UID of the request and a message; the
    patch type is set exactly when the request is allowed, and a response
    with a patch is an allowed one.  The request of the review is not
    changed. *)
Theorem response_invariants (admission : VolumeAdmission) (review : AdmissionReview) :
  exists r,
    HandleAdmission admission review = {| Request := Request review; Response := Some r |}
    /\ UID r = req_UID (Request review)
    /\ Result r <> None
    /\ (PatchType_ r = Some PatchTypeJSONPatch <-> Allowed r = true)
    /\ (Patch r <> None -> Allowed r = true).
Proof.
  exists (response (HandleAdmission_run admission review)).
  split; [reflexivity|]. split; [apply run_UID|].
  unfold HandleAdmission_run. cbv zeta.
  repeat case_match; cbn; repeat split; intros; congruence.
Qed.

(** *** The content of the patch *)

Lemma in_envPatches_iff (namespace : string) (i : nat) (c : Container) (p : PatchOperation) :
  In p (envPatches namespace i c)
  <-> (Env c = None /\ p = opInitEnv i)
      \/ (hasEnvVarSet c "NO_HOME" = true /\ WorkingDir c <> ""
          /\ p = opRemoveWorkingDir i)
      \/ (hasEnvVarSet c "HOME" = false /\ hasEnvVarSet c "NO_HOME" = false
          /\ p = opAddEnv i "HOME" ("/data/project/" +:+ Replace1 namespace "tool-" ""))
      \/ p = opAddEnv i "TOOL_DATA_DIR" ("/data/project/" +:+ Replace1 namespace "tool-" "").
Proof.
  unfold envPatches. cbv zeta. rewrite !in_app_iff.
  destruct (Env c); destruct (hasEnvVarSet c "NO_HOME"); destruct (hasEnvVarSet c "HOME");
    destruct (String.eqb_spec (WorkingDir c) ""); cbn [negb In];
    intuition (try congruence; auto).
Qed.

Lemma or_iff_both (A B C D : Prop) : (A <-> B) -> (C <-> D) -> (A \/ C <-> B \/ D).
Proof. tauto. Qed.

(** The operations of the full path, each kind with the condition under
    which the code emits it. *)
Lemma in_all_patches_iff (admission : VolumeAdmission) (namespace : string) (pod : Pod)
    (p : PatchOperation) :
  In p (volumesInit pod ++ mountAllPatches admission namespace pod)
  <-> (elems (Volumes pod) = [] /\ p = opInitVolumes)
      \/ (exists i c, Containers pod !! i = Some c
            /\ elems (VolumeMounts c) = [] /\ p = opInitVolumeMounts i)
      \/ (exists volume, In volume (Volumes_ admission)
            /\ hasVolumeByName pod (Name volume) = false
            /\ (p = opAddVolume volume
                \/ exists i c, Containers pod !! i = Some c
                     /\ hasMountByPath c (Path_ volume) = false
                     /\ p = opAddMount i volume))
      \/ (exists i c, Containers pod !! i = Some c /\ In p (envPatches namespace i c))
      \/ In p (nodeSelectorPatches pod).
Proof.
  unfold mountAllPatches. rewrite !in_app_iff.
  apply or_iff_both; [|apply or_iff_both; [|apply or_iff_both; [|apply or_iff_both]]].
  - unfold volumesInit. destruct (elems (Volumes pod)); cbn; intuition (try congruence; auto).
  - rewrite in_rangeFrom. cbn [Nat.add].
    split; intros (i & c & Hi & H); exists i, c; (split; [exact Hi|]);
      unfold volumeMountsInit in *; destruct (elems (VolumeMounts c)); cbn in *;
      intuition (try congruence; auto).
  - rewrite in_flat_map. split.
    + intros (volume & Hin & H). exists volume. split; [exact Hin|].
      now apply in_volumePatches.
    + intros (volume & Hin & Hhas & H). exists volume. split; [exact Hin|].
      unfold volumePatches. rewrite Hhas. destruct H as [->|(i & c & Hi & Hm & ->)].
      * now left.
      * right. apply in_rangeFrom. exists i, c. split; [exact Hi|].
        unfold mountPatch. rewrite Hm. now left.
  - rewrite in_rangeFrom. reflexivity.
  - reflexivity.
Qed.

Lemma in_nodeSelectorPatches_iff (pod : Pod) (p : PatchOperation) :
  In p (nodeSelectorPatches pod)
  <-> (NodeSelector pod = None /\ p = opInitNodeSelector)
      \/ ((forall m, NodeSelector pod = Some m -> m !! nfsMountedKey = None)
          /\ p = opNfsMounted).
Proof.
  unfold nodeSelectorPatches. destruct (NodeSelector pod) as [m|].
  - destruct (m !! nfsMountedKey) as [value|] eqn:Hkey; cbn; split.
    + intros [].
    + intros [[? _]|[H _]]; [discriminate|]. specialize (H m eq_refl). congruence.
    + intros [<-|[]]. right. split; [|reflexivity]. now intros ? [= <-].
    + intros [[? _]|[_ ->]]; [discriminate | now left].
  - rewrite lookup_empty. cbn. split.
    + intros [<-|[<-|[]]]; [now left|]. right. split; [discriminate | reflexivity].
    + intros [[_ ->]|[_ ->]]; auto.
Qed.

(** Two operations with different paths, operations or payloads differ. *)
Ltac ops_differ H :=
  solve [ apply (f_equal Value) in H; discriminate H
        | apply (f_equal Op) in H; discriminate H
        | apply (f_equal Path) in H; cbn in H; unfold containerPath in H; cbn in H;
          discriminate H ].

Lemma opOnContainer_inj (i j : nat) (f g op op' : string) (v v' : PatchValue) :
  isField f -> isField g ->
  {| Op := op; Path := containerPath i f; Value := v |}
  = {| Op := op'; Path := containerPath j g; Value := v' |} ->
  i = j /\ f = g /\ v = v'.
Proof.
  intros Hf Hg H.
  pose proof (f_equal Path H) as Hpath. pose proof (f_equal Value H) as Hv.
  cbn [Path Value] in Hpath, Hv.
  apply containerPath_inj in Hpath as [-> ->]; auto.
Qed.

(** X7: the patch of an allowed request only holds operations of nine
    kinds: [add] at [/spec/volumes], [/spec/volumes/-],
    [/spec/nodeSelector] and the nfs-mounted key of the node selector;
    and, for a container index of the Pod, [add] at its [volumeMounts],
    [volumeMounts/-], [env] and [env/-] and [remove] of its
    [workingDir].  Nothing else of the Pod is addressed and no
    operation is a [replace]. *)
Theorem patch_vocabulary
    (admission : VolumeAdmission) (review : AdmissionReview) (pod : Pod) (p : PatchOperation) :
  json_Unmarshal (Object_Raw (Request review)) = inl pod ->
  Allowed (response (HandleAdmission_run admission review)) = true ->
  In p (patches (HandleAdmission_run admission review)) ->
  (Op p = "add"
   /\ (Path p = "/spec/volumes" \/ Path p = "/spec/volumes/-"
       \/ Path p = "/spec/nodeSelector"
       \/ Path p = "/spec/nodeSelector/kubernetes.wmcloud.org~1nfs-mounted"))
  \/ exists i, i < length (Containers pod)
       /\ ((Op p = "add"
            /\ (Path p = containerPath i "/volumeMounts"
                \/ Path p = containerPath i "/volumeMounts/-"
                \/ Path p = containerPath i "/env"
                \/ Path p = containerPath i "/env/-"))
           \/ (Op p = "remove" /\ Path p = containerPath i "/workingDir"
               /\ Value p = NoValue)).
Proof.
  intros Hpod Hallowed.
  destruct (run_allowed_inv admission review pod Hpod Hallowed) as (Hl & Hns & Hvols).
  rewrite (run_validated_patches admission review pod Hpod Hl Hns Hvols).
  assert (Hfull : In p (volumesInit pod
                        ++ mountAllPatches admission (Namespace (Request review)) pod) ->
    (Op p = "add"
     /\ (Path p = "/spec/volumes" \/ Path p = "/spec/volumes/-"
         \/ Path p = "/spec/nodeSelector"
         \/ Path p = "/spec/nodeSelector/kubernetes.wmcloud.org~1nfs-mounted"))
    \/ exists i, i < length (Containers pod)
         /\ ((Op p = "add"
              /\ (Path p = containerPath i "/volumeMounts"
                  \/ Path p = containerPath i "/volumeMounts/-"
                  \/ Path p = containerPath i "/env"
                  \/ Path p = containerPath i "/env/-"))
             \/ (Op p = "remove" /\ Path p = containerPath i "/workingDir"
                 /\ Value p = NoValue))).
  { intros Hp. apply in_all_patches_iff in Hp
      as [[_ ->]|[(i & c & Hi & _ & ->)|[(v & _ & _ & [->|(i & c & Hi & _ & ->)])
         |[(i & c & Hi & Hp)|Hp]]]].
    - left. cbn. auto.
    - right. exists i. split; [eapply lookup_lt_Some, Hi|]. left. cbn. auto.
    - left. cbn. auto.
    - right. exists i. split; [eapply lookup_lt_Some, Hi|]. left. cbn. auto.
    - right. exists i. split; [eapply lookup_lt_Some, Hi|].
      apply in_envPatches_iff in Hp as [[_ ->]|[(_ & _ & ->)|[(_ & _ & ->)| ->]]];
        cbn; auto 10.
    - left. apply in_nodeSelectorPatches in Hp as [->| ->]; cbn; auto 10. }
  destruct (String.eqb (getLabelOrDefault pod MountConfigLabel MountAll) MountNone);
    [|exact Hfull].
  intros Hp. apply Hfull, in_app_iff. now left.
Qed.

(** X8: a [remove] is only emitted for the [workingDir] of a container
    that sets [NO_HOME] and whose [workingDir] is not empty: the engine
    removes what it has seen on the Pod, and nothing else. *)
Theorem remove_only_observed_workingDir
    (admission : VolumeAdmission) (review : AdmissionReview) (pod : Pod) (p : PatchOperation) :
  json_Unmarshal (Object_Raw (Request review)) = inl pod ->
  Allowed (response (HandleAdmission_run admission review)) = true ->
  In p (patches (HandleAdmission_run admission review)) ->
  Op p = "remove" ->
  exists i c, Containers pod !! i = Some c
    /\ hasEnvVarSet c "NO_HOME" = true
    /\ WorkingDir c <> ""
    /\ p = opRemoveWorkingDir i.
Proof.
  intros Hpod Hallowed Hp Hop.
  destruct (run_allowed_inv admission review pod Hpod Hallowed) as (Hl & Hns & Hvols).
  rewrite (run_validated_patches admission review pod Hpod Hl Hns Hvols) in Hp.
  assert (Hin : In p (volumesInit pod
                      ++ mountAllPatches admission (Namespace (Request review)) pod)).
  { destruct (String.eqb _ MountNone); [apply in_app_iff; now left | exact Hp]. }
  apply in_all_patches_iff in Hin
    as [[_ ->]|[(i & c & Hi & _ & ->)|[(v & _ & _ & [->|(i & c & Hi & _ & ->)])
       |[(i & c & Hi & Hin)|Hin]]]]; try discriminate Hop.
  - apply in_envPatches_iff in Hin as [[_ ->]|[(Hno & Hwd & ->)|[(_ & _ & ->)| ->]]];
      try discriminate Hop.
    exists i, c. auto.
  - apply in_nodeSelectorPatches in Hin as [->| ->]; discriminate Hop.
Qed.

(** X9: on the full path the volumes array is initialised exactly when
    the Pod has no volume, the volumeMounts array of a container exactly
    when it has no mount, and its env array exactly when it is nil: an
    empty volumes or volumeMounts array that is present is initialised
    again, an empty env array is not. *)
Theorem initialisations
    (admission : VolumeAdmission) (review : AdmissionReview) (pod : Pod) (i : nat) :
  json_Unmarshal (Object_Raw (Request review)) = inl pod ->
  getLabelOrDefault pod MountConfigLabel MountAll = MountAll ->
  Allowed (response (HandleAdmission_run admission review)) = true ->
  (In opInitVolumes (patches (HandleAdmission_run admission review))
   <-> elems (Volumes pod) = [])
  /\ (In (opInitVolumeMounts i) (patches (HandleAdmission_run admission review))
      <-> exists c, Containers pod !! i = Some c /\ elems (VolumeMounts c) = [])
  /\ (In (opInitEnv i) (patches (HandleAdmission_run admission review))
      <-> exists c, Containers pod !! i = Some c /\ Env c = None).
Proof.
  intros Hpod Hlabel Hallowed.
  destruct (run_all_allowed admission review pod Hpod Hlabel Hallowed)
    as (_ & _ & -> & _).
  rewrite !in_all_patches_iff. split; [|split]; split.
  - intros [[H _]|[(j & c & _ & _ & H)|[(v & _ & _ & [H|(j & c & _ & _ & H)])
       |[(j & c & _ & H)|H]]]]; [exact H|try ops_differ H..].
    + apply in_envPatches_iff in H as [[_ H]|[(_ & _ & H)|[(_ & _ & H)|H]]]; ops_differ H.
    + apply in_nodeSelectorPatches in H as [H|H]; ops_differ H.
  - intros H. left. auto.
  - intros [[_ H]|[(j & c & Hj & Hm & H)|[(v & _ & _ & [H|(j & c & _ & _ & H)])
       |[(j & c & _ & H)|H]]]]; try ops_differ H.
    + apply opOnContainer_inj in H as (-> & _); try (now eexists). eauto.
    + apply in_envPatches_iff in H as [[_ H]|[(_ & _ & H)|[(_ & _ & H)|H]]]; ops_differ H.
    + apply in_nodeSelectorPatches in H as [H|H]; ops_differ H.
  - intros (c & Hi & Hm). right. left. eauto.
  - intros [[_ H]|[(j & c & Hj & Hm & H)|[(v & _ & _ & [H|(j & c & _ & _ & H)])
       |[(j & c & Hj & H)|H]]]]; try ops_differ H.
    + apply in_envPatches_iff in H as [[Henv H]|[(_ & _ & H)|[(_ & _ & H)|H]]];
        try ops_differ H.
      apply opOnContainer_inj in H as (-> & _); try (now eexists). eauto.
    + apply in_nodeSelectorPatches in H as [H|H]; ops_differ H.
  - intros (c & Hi & Henv). right. right. right. left. exists i, c.
    split; [exact Hi|]. apply in_envPatches_iff. auto.
Qed.

Lemma rangeFrom_at {A B : Type} (xs : list B) (i k : nat) (l : list A) :
  rangeFrom (fun j _ => if Nat.eqb j i then xs else []) k l
  = if Nat.leb k i && Nat.ltb i (k + length l) then xs else [].
Proof.
  revert k. induction l as [|y l IH]; intros k; cbn [rangeFrom length].
  - destruct (Nat.leb_spec k i), (Nat.ltb_spec i (k + 0)); cbn; auto; lia.
  - rewrite IH.
    destruct (Nat.eqb_spec k i), (Nat.leb_spec (S k) i), (Nat.leb_spec k i),
      (Nat.ltb_spec i (S k + length l)), (Nat.ltb_spec i (k + S (length l)));
      cbn; rewrite ?app_nil_r; auto; lia.
Qed.

(** Only the loop over the containers appends environment variables. *)
Lemma filter_addsEnv_all (admission : VolumeAdmission) (namespace name : string) (pod : Pod)
    (i : nat) :
  List.filter (addsEnv i name) (volumesInit pod ++ mountAllPatches admission namespace pod)
  = rangeFrom (fun j c => List.filter (addsEnv i name) (envPatches namespace j c))
      0 (Containers pod).
Proof.
  unfold mountAllPatches. rewrite !List.filter_app.
  rewrite (filter_none _ (volumesInit pod)), (filter_none _ (rangeFrom volumeMountsInit _ _)),
    (filter_none _ (flat_map _ _)), (filter_none _ (nodeSelectorPatches pod)).
  - cbn [app]. now rewrite app_nil_r, filter_rangeFrom.
  - intros p Hp. apply in_nodeSelectorPatches in Hp as [->| ->]; reflexivity.
  - intros p Hp. apply in_flat_map in Hp as (volume & _ & Hp).
    apply in_volumePatches in Hp as (_ & [->|(k & c & _ & _ & ->)]); reflexivity.
  - intros p Hp. apply in_rangeFrom in Hp as (k & c & _ & Hp).
    unfold volumeMountsInit in Hp. destruct (Nat.eqb _ 0); [|destruct Hp].
    destruct Hp as [<-|[]]. reflexivity.
  - intros p Hp. unfold volumesInit in Hp. destruct (Nat.eqb _ 0); [|destruct Hp].
    destruct Hp as [<-|[]]. reflexivity.
Qed.

Lemma filter_isVolumeAdd_volumePatches (pod : Pod) (volumes : list Volume) :
  List.filter isVolumeAdd (flat_map (volumePatches pod) volumes)
  = map opAddVolume
      (List.filter (fun volume => negb (hasVolumeByName pod (Name volume))) volumes).
Proof.
  induction volumes as [|volume volumes IH]; cbn [flat_map List.filter map]; [reflexivity|].
  rewrite List.filter_app, IH. unfold volumePatches.
  destruct (hasVolumeByName pod (Name volume)); cbn [negb List.filter app]; [reflexivity|].
  change (isVolumeAdd (opAddVolume volume)) with true. cbn [map app].
  rewrite filter_none; [reflexivity|].
  intros p Hp. apply in_rangeFrom in Hp as (i & c & _ & Hp).
  unfold mountPatch in Hp. destruct (hasMountByPath c (Path_ volume)); [destruct Hp|].
  destruct Hp as [<-|[]]. reflexivity.
Qed.

(** X10: the volumes the full path appends to the Pod are, in the order
    of the policy, the volumes of the policy for which the Pod has no
    volume of the same name; each is appended as a hostPath volume, and a
    volume whose name is on the Pod is never appended, whatever its
    source is. *)
Theorem volume_additions
    (admission : VolumeAdmission) (review : AdmissionReview) (pod : Pod) :
  json_Unmarshal (Object_Raw (Request review)) = inl pod ->
  getLabelOrDefault pod MountConfigLabel MountAll = MountAll ->
  Allowed (response (HandleAdmission_run admission review)) = true ->
  List.filter isVolumeAdd (patches (HandleAdmission_run admission review))
  = map opAddVolume
      (List.filter (fun volume => negb (hasVolumeByName pod (Name volume)))
         (Volumes_ admission)).
Proof.
  intros Hpod Hlabel Hallowed.
  destruct (run_all_allowed admission review pod Hpod Hlabel Hallowed)
    as (_ & _ & -> & _).
  unfold mountAllPatches. rewrite !List.filter_app, filter_isVolumeAdd_volumePatches.
  rewrite (filter_none _ (volumesInit pod)), (filter_none _ (rangeFrom volumeMountsInit _ _)),
    (filter_none _ (rangeFrom (envPatches _) _ _)), (filter_none _ (nodeSelectorPatches pod)).
  - cbn [app]. now rewrite app_nil_r.
  - intros p Hp. apply in_nodeSelectorPatches in Hp as [->| ->]; reflexivity.
  - intros p Hp. apply in_rangeFrom in Hp as (k & c & _ & Hp).
    apply in_envPatches_iff in Hp as [[_ ->]|[(_ & _ & ->)|[(_ & _ & ->)| ->]]];
      reflexivity.
  - intros p Hp. apply in_rangeFrom in Hp as (k & c & _ & Hp).
    unfold volumeMountsInit in Hp. destruct (Nat.eqb _ 0); [|destruct Hp].
    destruct Hp as [<-|[]]. reflexivity.
  - intros p Hp. unfold volumesInit in Hp. destruct (Nat.eqb _ 0); [|destruct Hp].
    destruct Hp as [<-|[]]. reflexivity.
Qed.

(** X11: on the full path a mount is appended to container [i] exactly
    for the volumes of the policy whose name is not on the Pod and at
    whose path the container has no mount.  When the Pod has a volume of
    that name, no container gets the mount, whether it has one or not. *)
Theorem mount_additions
    (admission : VolumeAdmission) (review : AdmissionReview) (pod : Pod)
    (i : nat) (volume : Volume) :
  json_Unmarshal (Object_Raw (Request review)) = inl pod ->
  getLabelOrDefault pod MountConfigLabel MountAll = MountAll ->
  Allowed (response (HandleAdmission_run admission review)) = true ->
  (In (opAddMount i volume) (patches (HandleAdmission_run admission review))
   <-> exists v c,
         In v (Volumes_ admission)
         /\ volumeMount v = volumeMount volume
         /\ hasVolumeByName pod (Name v) = false
         /\ Containers pod !! i = Some c
         /\ hasMountByPath c (Path_ v) = false).
Proof.
  intros Hpod Hlabel Hallowed.
  destruct (run_all_allowed admission review pod Hpod Hlabel Hallowed)
    as (_ & _ & -> & _).
  rewrite in_all_patches_iff. split.
  - intros [[_ H]|[(j & c & _ & _ & H)|[(v & Hv & Hhas & [H|(j & c & Hj & Hm & H)])
       |[(j & c & _ & H)|H]]]]; try ops_differ H.
    + apply opOnContainer_inj in H as (-> & _ & Hval); try (now eexists).
      assert (Hsame : volumeMount v = volumeMount volume) by congruence.
    exists v, c. auto.
    + apply in_envPatches_iff in H as [[_ H]|[(_ & _ & H)|[(_ & _ & H)|H]]]; ops_differ H.
    + apply in_nodeSelectorPatches in H as [H|H]; ops_differ H.
  - intros (v & c & Hv & Hsame & Hhas & Hi & Hm).
    right. right. left. exists v. split; [exact Hv|]. split; [exact Hhas|].
    right. exists i, c. split; [exact Hi|]. split; [exact Hm|].
    unfold opAddMount. now rewrite Hsame.
Qed.

(** X12: on the full path a container that sets neither [HOME] nor
    [NO_HOME] gets exactly one [HOME] append, with the value
    [/data/project/{tenant}]; a container that sets one of them gets
    none. *)
Theorem home_additions
    (admission : VolumeAdmission) (review : AdmissionReview) (pod : Pod)
    (i : nat) (container : Container) :
  json_Unmarshal (Object_Raw (Request review)) = inl pod ->
  getLabelOrDefault pod MountConfigLabel MountAll = MountAll ->
  Allowed (response (HandleAdmission_run admission review)) = true ->
  Containers pod !! i = Some container ->
  List.filter (addsEnv i "HOME") (patches (HandleAdmission_run admission review))
  = if hasEnvVarSet container "HOME" || hasEnvVarSet container "NO_HOME"
    then []
    else [opAddEnv i "HOME"
            ("/data/project/" +:+ string_drop 5 (Namespace (Request review)))].
Proof.
  intros Hpod Hlabel Hallowed Hi.
  destruct (run_all_allowed admission review pod Hpod Hlabel Hallowed)
    as (Hns & _ & -> & _).
  rewrite filter_addsEnv_all.
  set (result := if hasEnvVarSet container "HOME" || hasEnvVarSet container "NO_HOME"
                 then []
                 else [opAddEnv i "HOME"
                         ("/data/project/" +:+ string_drop 5 (Namespace (Request review)))]).
  rewrite (rangeFrom_ext _ (fun j _ => if Nat.eqb j i then result else [])).
  - rewrite rangeFrom_at. cbn [Nat.leb andb Nat.add].
    pose proof (lookup_lt_Some _ _ _ Hi) as Hlt. apply Nat.ltb_lt in Hlt.
    now rewrite Hlt.
  - intros j c Hj. cbn [Nat.add]. rewrite filter_addsEnv_envPatches.
    destruct (Nat.eqb_spec j i) as [->|]; [|reflexivity].
    rewrite Hi in Hj. injection Hj as <-.
    unfold envPatches, result. cbv zeta. rewrite Replace1_prefix by exact Hns.
    destruct (Env container); destruct (hasEnvVarSet container "NO_HOME");
      destruct (hasEnvVarSet container "HOME");
      destruct (negb (String.eqb (WorkingDir container) ""));
      reflexivity.
Qed.

(** X13: on the full path the node selector is initialised exactly when
    the Pod has none, and the nfs-mounted key is added exactly when the
    node selector of the Pod does not have it: a value that the Pod gives
    to the key is never overwritten. *)
Theorem node_selector_additions
    (admission : VolumeAdmission) (review : AdmissionReview) (pod : Pod) :
  json_Unmarshal (Object_Raw (Request review)) = inl pod ->
  getLabelOrDefault pod MountConfigLabel MountAll = MountAll ->
  Allowed (response (HandleAdmission_run admission review)) = true ->
  (In opInitNodeSelector (patches (HandleAdmission_run admission review))
   <-> NodeSelector pod = None)
  /\ (In opNfsMounted (patches (HandleAdmission_run admission review))
      <-> forall m, NodeSelector pod = Some m -> m !! nfsMountedKey = None).
Proof.
  intros Hpod Hlabel Hallowed.
  destruct (run_all_allowed admission review pod Hpod Hlabel Hallowed)
    as (_ & _ & -> & _).
  rewrite !in_all_patches_iff, !in_nodeSelectorPatches_iff. split; split.
  - intros [[_ H]|[(j & c & _ & _ & H)|[(v & _ & _ & [H|(j & c & _ & _ & H)])
       |[(j & c & _ & H)|[[Hn _]|[_ H]]]]]]; try ops_differ H; [|exact Hn].
    apply in_envPatches_iff in H as [[_ H]|[(_ & _ & H)|[(_ & _ & H)|H]]]; ops_differ H.
  - intros H. right. right. right. right. left. auto.
  - intros [[_ H]|[(j & c & _ & _ & H)|[(v & _ & _ & [H|(j & c & _ & _ & H)])
       |[(j & c & _ & H)|[[_ H]|[Hn _]]]]]]; try ops_differ H; [|exact Hn].
    apply in_envPatches_iff in H as [[_ H]|[(_ & _ & H)|[(_ & _ & H)|H]]]; ops_differ H.
  - intros H. right. right. right. right. right. auto.
Qed.

(** *** The Pod after the patch *)

Lemma lookup_map {A B : Type} (f : A -> B) (l : list A) (i : nat) (x : A) :
  l !! i = Some x -> map f l !! i = Some (f x).
Proof.
  revert i. induction l as [|y l IH]; intros [|i] H; try discriminate; cbn in *.
  - now injection H as ->.
  - now apply IH.
Qed.

Lemma extends_refl {A : Type} (l : list A) : extends l l.
Proof. exists []. now rewrite app_nil_r. Qed.

Lemma extends_app {A : Type} (l more : list A) : extends l (l ++ more).
Proof. now exists more. Qed.

(** X14: the patch of an allowed request applies to the Pod it was
    computed for, operation by operation, and only adds to it: the labels
    and the number of containers are kept, the volumes, and the mounts
    and environment of every container, are kept at the beginning of the
    new ones, every entry of the node selector is kept, and the
    [workingDir] of a container without [NO_HOME] is kept. *)
Theorem patch_applies
    (admission : VolumeAdmission) (review : AdmissionReview) (pod : Pod) :
  json_Unmarshal (Object_Raw (Request review)) = inl pod ->
  Allowed (response (HandleAdmission_run admission review)) = true ->
  exists pod',
    applyPatch (patches (HandleAdmission_run admission review)) pod = Some pod'
    /\ Labels pod' = Labels pod
    /\ length (Containers pod') = length (Containers pod)
    /\ extends (elems (Volumes pod)) (elems (Volumes pod'))
    /\ (forall i c, Containers pod !! i = Some c ->
          exists c', Containers pod' !! i = Some c'
            /\ extends (elems (VolumeMounts c)) (elems (VolumeMounts c'))
            /\ extends (elems (Env c)) (elems (Env c'))
            /\ (hasEnvVarSet c "NO_HOME" = false -> WorkingDir c' = WorkingDir c))
    /\ (forall m key value, NodeSelector pod = Some m -> m !! key = Some value ->
          exists m', NodeSelector pod' = Some m' /\ m' !! key = Some value).
Proof.
  intros Hpod Hallowed.
  destruct (run_allowed_inv admission review pod Hpod Hallowed) as (Hl & Hns & Hvols).
  rewrite (run_validated_patches admission review pod Hpod Hl Hns Hvols).
  destruct (String.eqb (getLabelOrDefault pod MountConfigLabel MountAll) MountNone).
  - eexists. split; [apply applyPatch_volumesInit|]. cbn.
    split; [reflexivity|]. split; [reflexivity|]. split; [apply extends_refl|].
    split; [|eauto].
    intros i c Hi. exists c. split; [exact Hi|].
    split; [apply extends_refl|]. split; [apply extends_refl | reflexivity].
  - eexists. split; [apply applyPatch_all|]. cbn [patchedPod Labels Containers Volumes NodeSelector elems].
    split; [reflexivity|]. split; [apply length_map|]. split; [apply extends_app|].
    split.
    + intros i c Hi. eexists. split; [apply lookup_map, Hi|].
      cbn [patchedContainer mountsAfter VolumeMounts Env WorkingDir elems].
      split; [apply extends_app|]. split; [apply extends_app|].
      now intros ->.
    + intros m key value Hm Hkey. eexists. split; [reflexivity|].
      unfold patchedNodeSelector. rewrite Hm. cbv zeta.
      destruct (m !! nfsMountedKey) eqn:Hnfs; [exact Hkey|].
      rewrite lookup_insert_ne; [exact Hkey | congruence].
Qed.

(** X15: after the patch of an allowed request on the full path, the Pod
    has a volume under the name of every volume of the policy, every
    container has a mount at the path of every volume the patch added, an
    env array with [TOOL_DATA_DIR] and with [HOME] or [NO_HOME], and the
    node selector has the nfs-mounted key. *)
Theorem patched_pod_complete
    (admission : VolumeAdmission) (review : AdmissionReview) (pod : Pod) :
  json_Unmarshal (Object_Raw (Request review)) = inl pod ->
  getLabelOrDefault pod MountConfigLabel MountAll = MountAll ->
  Allowed (response (HandleAdmission_run admission review)) = true ->
  exists pod',
    applyPatch (patches (HandleAdmission_run admission review)) pod = Some pod'
    /\ (forall volume, In volume (Volumes_ admission) ->
          hasVolumeByName pod' (Name volume) = true)
    /\ (forall c', In c' (Containers pod') ->
          (forall volume, In volume (Volumes_ admission) ->
             hasVolumeByName pod (Name volume) = false ->
             hasMountByPath c' (Path_ volume) = true)
          /\ Env c' <> None
          /\ hasEnvVarSet c' "TOOL_DATA_DIR" = true
          /\ hasEnvVarSet c' "HOME" || hasEnvVarSet c' "NO_HOME" = true)
    /\ (exists m' value, NodeSelector pod' = Some m' /\ m' !! nfsMountedKey = Some value).
Proof.
  intros Hpod Hlabel Hallowed.
  destruct (run_all_allowed admission review pod Hpod Hlabel Hallowed)
    as (_ & _ & -> & _).
  eexists. split; [apply applyPatch_all|]. split; [|split].
  - intros volume Hin. now apply hasVolumeByName_patchedPod.
  - intros c' Hc'. cbn [patchedPod Containers] in Hc'.
    apply in_map_iff in Hc' as (c & <- & _). split; [|split; [|split]].
    + intros volume Hin Hhas. unfold hasMountByPath.
      cbn [patchedContainer mountsAfter VolumeMounts elems].
      rewrite existsb_app. fold (hasMountByPath c (Path_ volume)).
      destruct (hasMountByPath c (Path_ volume)) eqn:Hm; [reflexivity|].
      cbn [orb]. apply existsb_exists. exists (volumeMount volume). split.
      * apply in_map, filter_In. split; [|now rewrite Hm].
        apply filter_In. split; [exact Hin | now rewrite Hhas].
      * apply String.eqb_refl.
    + discriminate.
    + rewrite hasEnvVarSet_patchedContainer. unfold envAdded. cbv zeta.
      rewrite existsb_app. cbn. now rewrite !orb_true_r.
    + rewrite !hasEnvVarSet_patchedContainer. unfold envAdded. cbv zeta.
      destruct (hasEnvVarSet c "HOME"), (hasEnvVarSet c "NO_HOME"); reflexivity.
  - cbn [patchedPod NodeSelector]. unfold patchedNodeSelector. cbv zeta.
    destruct (match NodeSelector pod with Some m => m | None => ∅ end !! nfsMountedKey)
      as [value|] eqn:Hkey.
    + eauto.
    + eexists _, "true". split; [reflexivity|]. apply lookup_insert_eq.
Qed.

(** X16: of the labels of the Pod only the mount-mode label is looked at:
    two requests with the same UID and namespace whose Pods have the same
    volumes, containers and node selector and resolve to the same mount
    mode are answered alike, with the same patch list. *)
Theorem other_labels_irrelevant
    (admission : VolumeAdmission) (review review' : AdmissionReview) (pod pod' : Pod) :
  json_Unmarshal (Object_Raw (Request review)) = inl pod ->
  json_Unmarshal (Object_Raw (Request review')) = inl pod' ->
  req_UID (Request review) = req_UID (Request review') ->
  Namespace (Request review) = Namespace (Request review') ->
  Volumes pod = Volumes pod' ->
  Containers pod = Containers pod' ->
  NodeSelector pod = NodeSelector pod' ->
  getLabelOrDefault pod MountConfigLabel MountAll
  = getLabelOrDefault pod' MountConfigLabel MountAll ->
  HandleAdmission_run admission review = HandleAdmission_run admission review'.
Proof.
  intros Hpod Hpod' Huid Hns Hvols Hcs Hsel Hlabel.
  unfold HandleAdmission_run. cbv zeta.
  rewrite Hpod, Hpod', Huid, Hns, Hlabel, Hvols.
  assert (Hsame : mountAllPatches admission (Namespace (Request review')) pod
                  = mountAllPatches admission (Namespace (Request review')) pod').
  { unfold mountAllPatches, nodeSelectorPatches. rewrite Hcs, Hsel.
    f_equal. f_equal.
    apply flat_map_ext. intros volume.
    unfold volumePatches, hasVolumeByName. now rewrite Hvols, Hcs. }
  now rewrite Hsame.
Qed.

End Properties.

(** * The properties on the reference corpus *)

Lemma foreign_hostPath_denied_witness :
  exists r,
    Response (@HandleAdmission sampleJson referenceAdmission (sampleReview "tool-test" Byte.x05))
    = Some r
    /\ Allowed r = false /\ Patch r = None /\ PatchType_ r = None.
Proof.
  apply (@foreign_hostPath_denied sampleJson referenceAdmission
           (sampleReview "tool-test" Byte.x05) podForeign
           {| Volume_Name := "home";
              Volume_HostPath := Some {| hp_Path := "/etc"; hp_Type := None |} |}
           {| hp_Path := "/etc"; hp_Type := None |}).
  - reflexivity.
  - simpl. auto.
  - reflexivity.
  - intros H. discriminate H.
Defined.

Lemma non_tool_namespace_denied_witness :
  exists r,
    Response (@HandleAdmission sampleJson referenceAdmission
                (sampleReview "maintain-kubeusers" Byte.x02)) = Some r
    /\ Allowed r = false /\ Patch r = None /\ PatchType_ r = None.
Proof.
  apply (@non_tool_namespace_denied sampleJson referenceAdmission
           (sampleReview "maintain-kubeusers" Byte.x02) podDummy); reflexivity.
Defined.

Lemma mount_none_allowed_witness :
  exists r,
    Response (@HandleAdmission sampleJson referenceAdmission (sampleReview "tool-test" Byte.x04))
    = Some r
    /\ Allowed r = true.
Proof.
  destruct (@mount_none_allowed sampleJson referenceAdmission
              (sampleReview "tool-test" Byte.x04) podMountNone) as (r & Hr & Hallowed & _).
  - reflexivity.
  - reflexivity.
  - simpl. intros volume hostPath [].
  - reflexivity.
  - exists r. split; assumption.
Defined.


Lemma denied_response_shape_witness :
  Patch (messageResponse "e911857d-c318-11e8-bbad-025000000001"
           "Only tools can have tool volumes mounted to them") = None
  /\ PatchType_ (messageResponse "e911857d-c318-11e8-bbad-025000000001"
                   "Only tools can have tool volumes mounted to them") = None
  /\ UID (messageResponse "e911857d-c318-11e8-bbad-025000000001"
            "Only tools can have tool volumes mounted to them")
     = "e911857d-c318-11e8-bbad-025000000001".
Proof.
  apply (@denied_response_shape sampleJson referenceAdmission
           (sampleReview "maintain-kubeusers" Byte.x02)); reflexivity.
Defined.

Lemma tool_data_dir_once_witness :
  exists tenant,
    "tool-test" = "tool-" +:+ tenant
    /\ List.filter (addsEnv 0 "TOOL_DATA_DIR")
         (patches (@HandleAdmission_run sampleJson referenceAdmission
                     (sampleReview "tool-test" Byte.x00)))
       = [opAddEnv 0 "TOOL_DATA_DIR" ("/data/project/" +:+ tenant)].
Proof.
  destruct (@tool_data_dir_once sampleJson referenceAdmission
              (sampleReview "tool-test" Byte.x00) podNoneExist 0) as (tenant & Hns & Hone & _).
  - reflexivity.
  - reflexivity.
  - reflexivity.
  - simpl. lia.
  - exists tenant. split; assumption.
Defined.

Lemma home_precedence_witness :
  In (opRemoveWorkingDir 0)
     (patches (@HandleAdmission_run sampleJson referenceAdmission
                 (sampleReview "tool-test" Byte.x02))).
Proof.
  destruct (@home_precedence sampleJson referenceAdmission
              (sampleReview "tool-test" Byte.x02) podDummy 0
              {| VolumeMounts := Some [ {| Mount_MountPath := "/data/project"; Mount_Name := "home";
                                           Mount_ReadOnly := false |} ];
                 Env := Some [ {| Env_Name := "NO_HOME"; Env_Value := "original value" |} ];
                 WorkingDir := "/some/path" |}) as [_ Hno].
  - reflexivity.
  - reflexivity.
  - reflexivity.
  - reflexivity.
  - destruct Hno as [_ Hremove]; [reflexivity|].
    apply Hremove. simpl. discriminate.
Defined.

Lemma append_after_array_witness :
  exists parent,
    containerPath 0 "/volumeMounts/-" = parent +:+ "/-"
    /\ (arrayExists podNoneExist parent
        \/ createdBefore
             (patches (@HandleAdmission_run sampleJson referenceAdmission
                         (sampleReview "tool-test" Byte.x00))) 3 parent).
Proof.
  apply (@append_after_array sampleJson referenceAdmission
           (sampleReview "tool-test" Byte.x00) podNoneExist 3 (opAddMount 0 referenceHome));
    reflexivity.
Defined.

Lemma reference_scenario_witness :
  length (patches (@HandleAdmission_run sampleJson referenceAdmission
                     (sampleReview "tool-test" Byte.x00))) = 10.
Proof.
  destruct (@reference_scenario sampleJson (sampleReview "tool-test" Byte.x00)
              podNoneExist bareContainer) as (Hten & _ & _).
  - reflexivity.
  - reflexivity.
  - reflexivity.
  - reflexivity.
  - reflexivity.
  - reflexivity.
  - reflexivity.
  - destruct (Hten {[ "foo" := "bar" ]}) as [_ Hlen]; [reflexivity | reflexivity | exact Hlen].
Defined.

(** C9, as stated, fails: without a node selector the same Pod gets eleven
    operations, and with the node selector of the reference test the ten
    operations do not include the node selector initialisation. *)
Lemma reference_scenario_counterexample :
  @json_Unmarshal sampleJson (Object_Raw (Request (sampleReview "tool-test" Byte.x01))) = inl podBare
  /\ elems (Volumes podBare) = []
  /\ Containers podBare = [bareContainer]
  /\ Labels podBare !! MountConfigLabel = None
  /\ Allowed (response (@HandleAdmission_run sampleJson referenceAdmission
                          (sampleReview "tool-test" Byte.x01))) = true
  /\ length (patches (@HandleAdmission_run sampleJson referenceAdmission
                        (sampleReview "tool-test" Byte.x01))) = 11
  /\ length (patches (@HandleAdmission_run sampleJson referenceAdmission
                        (sampleReview "tool-test" Byte.x00))) = 10
  /\ ~ In opInitNodeSelector
         (patches (@HandleAdmission_run sampleJson referenceAdmission
                     (sampleReview "tool-test" Byte.x00))).
Proof.
  repeat split; try reflexivity.
  vm_compute. intuition discriminate.
Qed.

Lemma rerun_on_patched_pod_witness :
  patches (@HandleAdmission_run sampleJson homeOnlyAdmission (sampleReview "tool-test" Byte.x07))
  = [opAddEnv 0 "TOOL_DATA_DIR" "/data/project/test"].
Proof.
  destruct (@rerun_on_patched_pod sampleJson homeOnlyAdmission
              (sampleReview "tool-test" Byte.x01) (sampleReview "tool-test" Byte.x07) podBare)
    as [_ Hrerun].
  - reflexivity.
  - reflexivity.
  - reflexivity.
  - destruct Hrerun as [_ Hpatches]; [reflexivity | reflexivity |].
    rewrite Hpatches by reflexivity. reflexivity.
Defined.

(** C2, as stated, fails: with the reference policy the second run on the
    patched Pod is denied, because the added [etc-ldap] volume is a
    hostPath volume; with a policy of the home volume alone the second run
    is allowed and appends [TOOL_DATA_DIR] to a container that has it. *)
Lemma rerun_counterexample :
  Allowed (response (@HandleAdmission_run sampleJson referenceAdmission
                       (sampleReview "tool-test" Byte.x01))) = true
  /\ applyPatch (patches (@HandleAdmission_run sampleJson referenceAdmission
                            (sampleReview "tool-test" Byte.x01))) podBare
     = Some podBarePatched
  /\ @json_Unmarshal sampleJson (Object_Raw (Request (sampleReview "tool-test" Byte.x06)))
     = inl podBarePatched
  /\ Allowed (response (@HandleAdmission_run sampleJson referenceAdmission
                          (sampleReview "tool-test" Byte.x06))) = false
  /\ applyPatch (patches (@HandleAdmission_run sampleJson homeOnlyAdmission
                            (sampleReview "tool-test" Byte.x01))) podBare
     = Some podBarePatchedHome
  /\ @json_Unmarshal sampleJson (Object_Raw (Request (sampleReview "tool-test" Byte.x07)))
     = inl podBarePatchedHome
  /\ patches (@HandleAdmission_run sampleJson homeOnlyAdmission
                (sampleReview "tool-test" Byte.x07))
     = [opAddEnv 0 "TOOL_DATA_DIR" "/data/project/test"]
  /\ forallb (fun c => hasEnvVarSet c "TOOL_DATA_DIR") (Containers podBarePatchedHome) = true.
Proof. repeat split; reflexivity. Qed.

(** ** The further properties on the reference corpus *)

Lemma decode_error_response_witness :
  @HandleAdmission sampleJson referenceAdmission (rawReview "tool-test" [])
  = {| Request := Request (rawReview "tool-test" []);
       Response := Some {| UID := "e911857d-c318-11e8-bbad-025000000001"; Allowed := false;
                           Result := Some {| Message := "unexpected end of JSON input" |};
                           Patch := None; PatchType_ := None |} |}.
Proof.
  apply (@decode_error_response sampleJson referenceAdmission (rawReview "tool-test" [])
           "unexpected end of JSON input").
  reflexivity.
Defined.

Lemma invalid_label_denied_witness :
  Response (@HandleAdmission furtherJson referenceAdmission
              (rawReview "maintain-kubeusers" [Byte.x00]))
  = Some {| UID := "e911857d-c318-11e8-bbad-025000000001"; Allowed := false;
            Result := Some {| Message := "Invalid value for toolforge.org/mount-storage label" |};
            Patch := None; PatchType_ := None |}.
Proof.
  apply (@invalid_label_denied furtherJson referenceAdmission
           (rawReview "maintain-kubeusers" [Byte.x00]) podInvalidLabel "All").
  - reflexivity.
  - reflexivity.
  - discriminate.
  - discriminate.
Defined.

Lemma non_tool_namespace_message_witness :
  Response (@HandleAdmission sampleJson referenceAdmission
              (sampleReview "maintain-kubeusers" Byte.x05))
  = Some {| UID := "e911857d-c318-11e8-bbad-025000000001"; Allowed := false;
            Result := Some {| Message := "Only tools can have tool volumes mounted to them" |};
            Patch := None; PatchType_ := None |}.
Proof.
  apply (@non_tool_namespace_message sampleJson referenceAdmission
           (sampleReview "maintain-kubeusers" Byte.x05) podForeign).
  - reflexivity.
  - left. reflexivity.
  - reflexivity.
Defined.

Lemma first_foreign_hostPath_reported_witness :
  Response (@HandleAdmission furtherJson referenceAdmission (rawReview "tool-test" [Byte.x01]))
  = Some {| UID := "e911857d-c318-11e8-bbad-025000000001"; Allowed := false;
            Result := Some {| Message :=
              "No hostPath volumes allowed, got one under /spec/volumes/1 Name:data HostPath:/var/lib" |};
            Patch := None; PatchType_ := None |}.
Proof.
  apply (@first_foreign_hostPath_reported furtherJson referenceAdmission
           (rawReview "tool-test" [Byte.x01]) podSecondForeign [homeVolume] []
           {| Volume_Name := "data";
              Volume_HostPath := Some {| hp_Path := "/var/lib"; hp_Type := None |} |}
           {| hp_Path := "/var/lib"; hp_Type := None |}).
  - reflexivity.
  - left. reflexivity.
  - reflexivity.
  - reflexivity.
  - intros volume hostPath [<-|[]] Hhp. injection Hhp as <-. split; reflexivity.
  - reflexivity.
  - discriminate.
Defined.

Lemma allowed_iff_witness :
  Allowed (response (@HandleAdmission_run sampleJson referenceAdmission
                       (sampleReview "tool-test" Byte.x00))) = true.
Proof.
  apply (@allowed_iff sampleJson referenceAdmission (sampleReview "tool-test" Byte.x00)
           podNoneExist); [reflexivity|].
  split; [left; reflexivity|]. split; [reflexivity|]. split.
  - simpl. intros volume hostPath [].
  - right. eexists. reflexivity.
Defined.

Lemma patch_vocabulary_witness :
  exists i, i < 1 /\ containerPath 0 "/volumeMounts/-" = containerPath i "/volumeMounts/-".
Proof.
  destruct (@patch_vocabulary sampleJson referenceAdmission (sampleReview "tool-test" Byte.x00)
              podNoneExist (opAddMount 0 referenceHome)) as [[_ Hpath]|(i & Hi & Hkind)].
  - reflexivity.
  - reflexivity.
  - do 3 right. left. reflexivity.
  - cbn in Hpath. unfold containerPath in Hpath. cbn in Hpath.
    exfalso. destruct Hpath as [H|[H|[H|H]]]; discriminate H.
  - exists 0. split; [simpl; lia | reflexivity].
Defined.

Lemma remove_only_observed_workingDir_witness :
  exists i c, Containers podDummy !! i = Some c
    /\ hasEnvVarSet c "NO_HOME" = true
    /\ WorkingDir c <> ""
    /\ opRemoveWorkingDir 0 = opRemoveWorkingDir i.
Proof.
  apply (@remove_only_observed_workingDir sampleJson referenceAdmission
           (sampleReview "tool-test" Byte.x02) podDummy (opRemoveWorkingDir 0)).
  - reflexivity.
  - reflexivity.
  - do 2 right. left. reflexivity.
  - reflexivity.
Defined.

Lemma initialisations_witness :
  In (opInitEnv 0)
     (patches (@HandleAdmission_run sampleJson referenceAdmission
                 (sampleReview "tool-test" Byte.x00))).
Proof.
  destruct (@initialisations sampleJson referenceAdmission (sampleReview "tool-test" Byte.x00)
              podNoneExist 0) as (_ & _ & Henv).
  - reflexivity.
  - reflexivity.
  - reflexivity.
  - apply Henv. exists bareContainer. split; reflexivity.
Defined.

Lemma volume_additions_witness :
  List.filter isVolumeAdd
    (patches (@HandleAdmission_run sampleJson referenceAdmission
                (sampleReview "tool-test" Byte.x03)))
  = [opAddVolume referenceLdap].
Proof.
  rewrite (@volume_additions sampleJson referenceAdmission (sampleReview "tool-test" Byte.x03)
             podHomeSet); reflexivity.
Defined.

Lemma mount_additions_witness :
  In (opAddMount 0 referenceLdap)
     (patches (@HandleAdmission_run sampleJson referenceAdmission
                 (sampleReview "tool-test" Byte.x03))).
Proof.
  apply (@mount_additions sampleJson referenceAdmission (sampleReview "tool-test" Byte.x03)
           podHomeSet 0 referenceLdap).
  - reflexivity.
  - reflexivity.
  - reflexivity.
  - eexists referenceLdap, _. split; [simpl; auto|].
    split; [reflexivity|]. split; [reflexivity|]. split; reflexivity.
Defined.

Lemma home_additions_witness :
  List.filter (addsEnv 0 "HOME")
    (patches (@HandleAdmission_run sampleJson referenceAdmission
                (sampleReview "tool-test" Byte.x00)))
  = [opAddEnv 0 "HOME" "/data/project/test"].
Proof.
  rewrite (@home_additions sampleJson referenceAdmission (sampleReview "tool-test" Byte.x00)
             podNoneExist 0 bareContainer); reflexivity.
Defined.

Lemma node_selector_additions_witness :
  ~ In opNfsMounted
      (patches (@HandleAdmission_run furtherJson referenceAdmission
                  (rawReview "tool-test" [Byte.x02]))).
Proof.
  destruct (@node_selector_additions furtherJson referenceAdmission
              (rawReview "tool-test" [Byte.x02]) podPinned) as [_ Hkey].
  - reflexivity.
  - reflexivity.
  - reflexivity.
  - intros Hin.
    pose proof (proj1 Hkey Hin {[ nfsMountedKey := "false" ]} eq_refl) as Hnone.
    discriminate Hnone.
Defined.

Lemma patch_applies_witness :
  exists pod',
    applyPatch (patches (@HandleAdmission_run sampleJson referenceAdmission
                           (sampleReview "tool-test" Byte.x02))) podDummy = Some pod'
    /\ length (Containers pod') = 1.
Proof.
  destruct (@patch_applies sampleJson referenceAdmission (sampleReview "tool-test" Byte.x02)
              podDummy) as (pod' & Happly & _ & Hlen & _).
  - reflexivity.
  - reflexivity.
  - exists pod'. split; [exact Happly | exact Hlen].
Defined.

Lemma patched_pod_complete_witness :
  exists pod',
    applyPatch (patches (@HandleAdmission_run sampleJson referenceAdmission
                           (sampleReview "tool-test" Byte.x00))) podNoneExist = Some pod'
    /\ hasVolumeByName pod' "etc-ldap" = true.
Proof.
  destruct (@patched_pod_complete sampleJson referenceAdmission
              (sampleReview "tool-test" Byte.x00) podNoneExist) as (pod' & Happly & Hvols & _).
  - reflexivity.
  - reflexivity.
  - reflexivity.
  - exists pod'. split; [exact Happly|].
    apply (Hvols referenceLdap). simpl. auto.
Defined.

Lemma other_labels_irrelevant_witness :
  @HandleAdmission_run furtherJson referenceAdmission (rawReview "tool-test" [Byte.x03])
  = @HandleAdmission_run furtherJson referenceAdmission (rawReview "tool-test" [Byte.x04]).
Proof.
  apply (@other_labels_irrelevant furtherJson referenceAdmission
           (rawReview "tool-test" [Byte.x03]) (rawReview "tool-test" [Byte.x04])
           podBare podLabelled); reflexivity.
Defined.
